(** * The Taskade memory export (export_to_taskade.py)

    A shallow embedding of the export pipeline: the query of the active
    memory entries, the row-to-payload transformation, [send_memory] with
    its retry on HTTP 429, and the loop of [export_memories] with its
    counters and its pacing delay.

    Python integers are [Z]; strings are [string]; the row returned by the
    cursor is a record with one field per selected column, nullable columns
    being options.  The outside world is explicit: the webhook is a function
    giving the outcome of the k-th [requests.post], and everything the script
    does to the world (posting, sleeping, printing) is appended to a log. *)

From Stdlib Require Import ZArith List String Ascii Bool Lia.
From Stdlib Require Import Floats.SpecFloat.
From Stdlib Require Import Permutation.
From Equations Require Import Equations.
Import ListNotations.

Local Open Scope string_scope.
Local Open Scope list_scope.
Local Open Scope Z_scope.

(** ** Strings and truthiness *)

(** [str.lower()] on the ASCII range: 'A'..'Z' are moved to 'a'..'z', every
    other byte is left as it is. *)
Definition lower_ascii (c : ascii) : ascii :=
  let n := nat_of_ascii c in
  if (Nat.leb 65 n && Nat.leb n 90)%bool then ascii_of_nat (n + 32) else c.

Fixpoint lower (s : string) : string :=
  match s with
  | EmptyString => EmptyString
  | String c rest => String (lower_ascii c) (lower rest)
  end.

(** Truth value of a nullable string: [None] and [''] are false. *)
Definition truthy_str (v : option string) : bool :=
  match v with
  | Some (String _ _) => true
  | _ => false
  end.

(** Truth value of a nullable boolean column. *)
Definition truthy_bool (v : option bool) : bool :=
  match v with
  | Some true => true
  | _ => false
  end.

(** [s[:n]] *)
Definition prefix (n : nat) (s : string) : string := substring 0 n s.

(** ** Configuration constants *)

Definition WEBHOOK_URL : string :=
  "https://www.taskade.com/api/v1/flows/01KD8638JJBXA7AP6CYS7YD25B/webhook".
Definition BATCH_SIZE : Z := 1.
Definition DELAY_BETWEEN_BATCHES : Z := 5.
Definition DELAY_ON_ERROR : Z := 120.
Definition REQUEST_TIMEOUT : Z := 15.
(** The literal bound of [if retry_count < 3]. *)
Definition MAX_RETRIES : Z := 3.

Section Script.

(** The value the driver returns for the [confidence] column, and Python's
    [float()] on it.  Neither is code of the script. *)
Context {Numeric : Type}.
Variable py_float : Numeric -> spec_float.

(** ** Data model *)

(** One fetched row:
    [SELECT content, type, importance, confidence, support_count, status,
            is_protected, source]. *)
Record Row := mkRow {
  content : string;                 (* row[0] *)
  type : option string;             (* row[1] *)
  importance : option Z;            (* row[2] *)
  confidence : option Numeric;      (* row[3] *)
  support_count : option Z;         (* row[4] *)
  status : option string;           (* row[5] *)
  is_protected : option bool;       (* row[6] *)
  source : option string            (* row[7] *)
}.

(** The dict [memory_data] posted as JSON. *)
Record Payload := mkPayload {
  memoryContent : string;
  memoryType : string;
  p_importance : option Z;
  p_confidence : spec_float;
  supportCount : option Z;
  p_status : string;
  isProtected : string;
  p_source : string
}.

(** The literal [0.0]. *)
Definition float_zero : spec_float := S754_zero false.

(** Lines 107-116: the dict built from a row. *)
Definition memory_data_of (row : Row) : Payload :=
  {| memoryContent := content row;
     memoryType := if truthy_str (type row)
                   then match type row with Some t => lower t | None => "fact" end
                   else "fact";
     p_importance := importance row;
     p_confidence := match confidence row with
                     | Some c => py_float c
                     | None => float_zero
                     end;
     supportCount := support_count row;
     p_status := if truthy_str (status row)
                 then match status row with Some t => lower t | None => "active" end
                 else "active";
     isProtected := if truthy_bool (is_protected row) then "yes" else "no";
     p_source := if truthy_str (source row)
                 then match source row with Some s => s | None => "postgresql_export" end
                 else "postgresql_export" |}.

(** ** The outside world *)

(** What [requests.post] gives back: a response with its status code, or a
    [requests.exceptions.RequestException]. *)
Inductive Transport :=
| Response (status_code : Z)
| RequestException (e : string).

(** The printed lines, one constructor per [print] of the script, carrying
    the values interpolated into it. *)
Inductive Line :=
| RateLimitedLine (delay retry : Z)
| FailedAfterRetriesLine (head : string)
| HttpLine (status_code : Z) (head : string)
| NetworkErrorLine (e : string)
| TotalToExportLine (total : Z)
| StartingLine (batch_size delay : Z)
| SentLine (i total : Z) (head : string)
| BatchCompleteLine (batch_count delay : Z)
| RuleLine
| ExportCompleteLine
| SuccessfulLine (n : Z)
| FailedLine (n : Z)
| TotalLine (n : Z)
| TotalBatchesLine (n : Z)
| AllExportedLine
| ViewThemLine
| ErrorLine (e : string).

Inductive Event :=
| Post (url : string) (json : Payload) (timeout : Z)
| Sleep (seconds : Z)
| Print (line : Line).

(** The world threaded through the run: how many requests were issued so
    far, and everything done so far, oldest first. *)
Record World := mkWorld {
  sent : nat;
  log : list Event
}.

(** The webhook: the outcome of the k-th request of the run (counted from
    0), which may depend on the body sent. *)
Variable requests_post : nat -> Payload -> Transport.

Definition M (A : Type) : Type := World -> A * World.

Definition ret {A} (a : A) : M A := fun w => (a, w).

Definition bind {A B} (c : M A) (k : A -> M B) : M B :=
  fun w => let (a, w1) := c w in k a w1.

Notation "x <- c ;; k" := (bind c (fun x => k))
  (at level 61, c at next level, right associativity).
Notation "c ;; k" := (bind c (fun _ => k))
  (at level 61, right associativity).

Definition emit (e : Event) : M unit :=
  fun w => (tt, {| sent := sent w; log := log w ++ [e] |}).

Definition print (l : Line) : M unit := emit (Print l).

Definition sleep (seconds : Z) : M unit := emit (Sleep seconds).

(** [requests.post(WEBHOOK_URL, json=memory_data, timeout=15)] *)
Definition post (memory_data : Payload) : M Transport :=
  fun w => (requests_post (sent w) memory_data,
            {| sent := S (sent w);
               log := log w ++ [Post WEBHOOK_URL memory_data REQUEST_TIMEOUT] |}).

(** ** send_memory *)

(** What decreases along the recursion: the retries still allowed. *)
Definition retry_measure (retry_count : Z) : nat :=
  Z.to_nat (MAX_RETRIES - retry_count).

Equations? send_memory (memory_data : Payload) (retry_count : Z) : M bool
  by wf (retry_measure retry_count) lt :=
send_memory memory_data retry_count :=
  response <- post memory_data ;;
  match response with
  | Response status_code =>
      if status_code =? 200 then ret true
      else if status_code =? 429 then
        match Z_lt_dec retry_count MAX_RETRIES with
        | left _ =>
            print (RateLimitedLine DELAY_ON_ERROR (retry_count + 1)) ;;
            sleep DELAY_ON_ERROR ;;
            send_memory memory_data (retry_count + 1)
        | right _ =>
            print (FailedAfterRetriesLine (prefix 50 (memoryContent memory_data))) ;;
            ret false
        end
      else
        print (HttpLine status_code (prefix 50 (memoryContent memory_data))) ;;
        ret false
  | RequestException e =>
      print (NetworkErrorLine e) ;;
      ret false
  end.
Proof.
  unfold retry_measure, MAX_RETRIES in *. lia.
Qed.

(** ** The store *)

(** A line of the table [memory_entries]: the selected columns and the
    creation time the query orders by. *)
Record Entry := mkEntry {
  entry_row : Row;
  created_at : Z
}.

(** What a statement run through the cursor gives: an exception, or its
    result on the table as that statement finds it.  The two statements of
    the script are run one after the other and the table can be changed by
    others in between, so each has its own view of it. *)
Inductive Query :=
| QueryError (e : string)
| Sees (memory_entries : list Entry).

(** [psycopg2.connect]: an exception, or a connection, through which the
    COUNT statement of line 86 and the SELECT statement of lines 91-97 are
    run. *)
Inductive Store :=
| ConnectError (e : string)
| Connected (count_query select_query : Query).

(** [WHERE status = 'ACTIVE'] *)
Definition is_active (e : Entry) : bool :=
  match status (entry_row e) with
  | Some s => String.eqb s "ACTIVE"
  | None => false
  end.

(** [ORDER BY importance DESC, created_at DESC]: does [a] sort strictly
    before [b].  A null importance is larger than any number, as in
    PostgreSQL. *)
Definition sorts_before (a b : Entry) : bool :=
  match importance (entry_row a), importance (entry_row b) with
  | None, None => created_at b <? created_at a
  | None, Some _ => true
  | Some _, None => false
  | Some x, Some y => (y <? x) || ((x =? y) && (created_at b <? created_at a))
  end.

Fixpoint insert_entry (e : Entry) (sorted : list Entry) : list Entry :=
  match sorted with
  | [] => [e]
  | f :: rest =>
      if sorts_before e f then e :: f :: rest else f :: insert_entry e rest
  end.

Definition order_by (entries : list Entry) : list Entry :=
  fold_right insert_entry [] entries.

(** [SELECT COUNT( * ) FROM memory_entries WHERE status = 'ACTIVE'] *)
Definition select_count (table : list Entry) : Z :=
  Z.of_nat (List.length (filter is_active table)).

(** The second query and [cursor.fetchall()]. *)
Definition select_memories (table : list Entry) : list Row :=
  map entry_row (order_by (filter is_active table)).

(** ** export_memories *)

Record Counters := mkCounters {
  success_count : Z;
  fail_count : Z;
  batch_count : Z
}.

Definition no_counts : Counters := mkCounters 0 0 0.

(** One turn of [for i, row in enumerate(memories, 1)], lines 107-129. *)
Definition loop_body (total i : Z) (row : Row) (c : Counters) : M Counters :=
  let memory_data := memory_data_of row in
  ok <- send_memory memory_data 0 ;;
  c1 <- (if ok : bool then
           print (SentLine i total (prefix 60 (memoryContent memory_data))) ;;
           ret (mkCounters (success_count c + 1) (fail_count c) (batch_count c))
         else
           ret (mkCounters (success_count c) (fail_count c + 1) (batch_count c))) ;;
  if (i mod BATCH_SIZE =? 0) && (i <? total) then
    let c2 := mkCounters (success_count c1) (fail_count c1) (batch_count c1 + 1) in
    print (BatchCompleteLine (batch_count c2) DELAY_BETWEEN_BATCHES) ;;
    sleep DELAY_BETWEEN_BATCHES ;;
    ret c2
  else ret c1.

Fixpoint export_loop (total i : Z) (memories : list Row) (c : Counters)
  : M Counters :=
  match memories with
  | [] => ret c
  | row :: rest =>
      c1 <- loop_body total i row c ;;
      export_loop total (i + 1) rest c1
  end.

(** Lines 79-150.  Closing the cursor and the connection leaves nothing in
    the log.  The [except Exception] branch is reached when connecting or
    one of the two statements raises; the loop raises nothing, a
    [RequestException] being caught in [send_memory]. *)
Definition export_memories (store : Store) : M unit :=
  match store with
  | ConnectError e => print (ErrorLine e)
  | Connected (QueryError e) _ => print (ErrorLine e)
  | Connected (Sees counted) select_query =>
      let total := select_count counted in
      print (TotalToExportLine total) ;;
      match select_query with
      | QueryError e => print (ErrorLine e)
      | Sees fetched =>
          let memories := select_memories fetched in
          print (StartingLine BATCH_SIZE DELAY_BETWEEN_BATCHES) ;;
          c <- export_loop total 1 memories no_counts ;;
          print RuleLine ;;
          print ExportCompleteLine ;;
          print RuleLine ;;
          print (SuccessfulLine (success_count c)) ;;
          print (FailedLine (fail_count c)) ;;
          print (TotalLine total) ;;
          print (TotalBatchesLine (if total >? 0 then batch_count c + 1 else 0)) ;;
          if (fail_count c =? 0) && (total >? 0) then
            print AllExportedLine ;;
            print ViewThemLine
          else ret tt
      end
  end.

(** The world before the script starts. *)
Definition start : World := mkWorld 0 [].

End Script.

Arguments Row : clear implicits.
Arguments Entry : clear implicits.
Arguments Query : clear implicits.
Arguments Store : clear implicits.

(** ** Reading a log *)

Definition is_post (e : Event) : bool :=
  match e with Post _ _ _ => true | _ => false end.

Definition is_sleep (e : Event) : bool :=
  match e with Sleep _ => true | _ => false end.

(** The wait before a retry: [time.sleep(DELAY_ON_ERROR)]. *)
Definition is_cooldown (e : Event) : bool :=
  match e with Sleep s => s =? DELAY_ON_ERROR | _ => false end.

(** The wait between batches: [time.sleep(DELAY_BETWEEN_BATCHES)]. *)
Definition is_pacing (e : Event) : bool :=
  match e with Sleep s => s =? DELAY_BETWEEN_BATCHES | _ => false end.

Definition count (f : Event -> bool) (events : list Event) : nat :=
  List.length (filter f events).

Definition attempts := count is_post.
Definition sleeps := count is_sleep.
Definition cooldowns := count is_cooldown.
Definition pacings := count is_pacing.

(** The world [w] after [n] more requests and the events [delta]. *)
Definition advance (w : World) (n : nat) (delta : list Event) : World :=
  {| sent := sent w + n; log := log w ++ delta |}.

(** The summary printed at lines 132-138. *)
Definition final_summary (total : Z) (c : Counters) : list Event :=
  [ Print RuleLine; Print ExportCompleteLine; Print RuleLine;
    Print (SuccessfulLine (success_count c));
    Print (FailedLine (fail_count c));
    Print (TotalLine total);
    Print (TotalBatchesLine (if total >? 0 then batch_count c + 1 else 0)) ].

(** The two lines printed after it when nothing failed. *)
Definition congratulation (total : Z) (c : Counters) : list Event :=
  if (fail_count c =? 0) && (total >? 0)
  then [Print AllExportedLine; Print ViewThemLine] else [].

(** What one call of [send_memory] leaves in the log when the webhook
    answers 429 and a retry is still allowed: the request, the notice with
    the number of the coming retry, the wait. *)
Definition retry_round (md : Payload) (retry : Z) : list Event :=
  [ Post WEBHOOK_URL md REQUEST_TIMEOUT;
    Print (RateLimitedLine DELAY_ON_ERROR retry);
    Sleep DELAY_ON_ERROR ].

(** The events that follow the last request of a log (the whole log when it
    holds no request). *)
Fixpoint after_last_post (events : list Event) : list Event :=
  match events with
  | [] => []
  | e :: rest =>
      if existsb is_post rest then after_last_post rest
      else if is_post e then rest else e :: rest
  end.

(** What a call [send_memory md retry_count] adds to the log, [n] being the
    number of requests it issues. *)
Definition delivery_effect (md : Payload) (retry_count : Z)
  (n : nat) (delta : list Event) : Prop :=
  attempts delta = n /\
  (1 <= n <= 1 + retry_measure retry_count)%nat /\
  sleeps delta = (n - 1)%nat /\
  cooldowns delta = (n - 1)%nat /\
  pacings delta = 0%nat /\
  exists rest, delta = Post WEBHOOK_URL md REQUEST_TIMEOUT :: rest.

(** The test of line 126. *)
Definition batch_due (total i : Z) : bool :=
  (i mod BATCH_SIZE =? 0) && (i <? total).

(** The counters after a turn of the loop, [ok] being what [send_memory]
    returned and [paced] whether the batch delay was taken. *)
Definition tally (ok paced : bool) (c : Counters) : Counters :=
  mkCounters (if ok then success_count c + 1 else success_count c)
             (if ok then fail_count c else fail_count c + 1)
             (if paced then batch_count c + 1 else batch_count c).

(** What a turn of the loop adds to the log after [send_memory] returned. *)
Definition turn_report (total i : Z) (md : Payload) (c : Counters) (ok : bool)
  : list Event :=
  (if ok then [Print (SentLine i total (prefix 60 (memoryContent md)))] else []) ++
  (if batch_due total i
   then [ Print (BatchCompleteLine (batch_count c + 1) DELAY_BETWEEN_BATCHES);
          Sleep DELAY_BETWEEN_BATCHES ]
   else []).

(** How many of the [turns] turns starting at index [i] take the batch
    delay. *)
Fixpoint turns_due (total i : Z) (turns : nat) : nat :=
  match turns with
  | O => 0%nat
  | S t => ((if batch_due total i then 1 else 0) + turns_due total (i + 1) t)%nat
  end.

(** The two lines printed before the loop. *)
Definition header (total : Z) : list Event :=
  [ Print (TotalToExportLine total);
    Print (StartingLine BATCH_SIZE DELAY_BETWEEN_BATCHES) ].

(** ** get_connection *)

(** The dict [DB_CONFIG]. *)
Record DbConfig := mkDbConfig {
  host : string;
  database : string;
  user : string;
  password : string;
  port : Z
}.

(** The two ways [psycopg2.connect] is called. *)
Inductive ConnectArgs :=
| ByUrl (dsn : string)
| ByConfig (config : DbConfig).


(** ** More ways to read a log and a run *)

(** The seconds spent in [time.sleep]. *)
Fixpoint slept (events : list Event) : Z :=
  match events with
  | [] => 0
  | Sleep seconds :: rest => seconds + slept rest
  | _ :: rest => slept rest
  end.

(** The bodies posted, oldest first. *)
Fixpoint posted (events : list Event) : list Payload :=
  match events with
  | [] => []
  | Post _ json _ :: rest => json :: posted rest
  | _ :: rest => posted rest
  end.

(** The progress line of a memory that went through. *)
Definition is_sent_line (e : Event) : bool :=
  match e with Print (SentLine _ _ _) => true | _ => false end.

(** The three lines [send_memory] prints before returning False. *)
Definition is_failure_line (e : Event) : bool :=
  match e with
  | Print (FailedAfterRetriesLine _) => true
  | Print (HttpLine _ _) => true
  | Print (NetworkErrorLine _) => true
  | _ => false
  end.

Definition is_error_line (e : Event) : bool :=
  match e with Print (ErrorLine _) => true | _ => false end.

Definition is_all_exported (e : Event) : bool :=
  match e with Print AllExportedLine => true | _ => false end.

Definition accepted (answer : Transport) : bool :=
  match answer with Response code => code =? 200 | RequestException _ => false end.

Definition rate_limited (answer : Transport) : bool :=
  match answer with Response code => code =? 429 | RequestException _ => false end.

(** What [k] retries in a row leave in the log, the first one being made
    with [retry_count]. *)
Fixpoint retry_rounds (md : Payload) (retry_count : Z) (k : nat) : list Event :=
  match k with
  | O => []
  | S k' => retry_round md (retry_count + 1) ++ retry_rounds md (retry_count + 1) k'
  end.

(** What [send_memory] prints after the answer on which it returns. *)
Definition closing (md : Payload) (answer : Transport) : list Event :=
  match answer with
  | Response code =>
      if code =? 200 then []
      else if code =? 429
           then [Print (FailedAfterRetriesLine (prefix 50 (memoryContent md)))]
           else [Print (HttpLine code (prefix 50 (memoryContent md)))]
  | RequestException e => [Print (NetworkErrorLine e)]
  end.

(** How the delivery of one row went: the retries made and the answer to
    the last request. *)
Definition Outcome : Type := nat * Transport.

Definition retries_of (outcomes : list Outcome) : nat :=
  list_sum (map fst outcomes).

Definition requests_of (outcomes : list Outcome) : nat :=
  list_sum (map (fun o => S (fst o)) outcomes).

Definition delivered (outcomes : list Outcome) : nat :=
  List.length (filter (fun o => accepted (snd o)) outcomes).

Definition undelivered (outcomes : list Outcome) : nat :=
  List.length (filter (fun o => negb (accepted (snd o))) outcomes).

(** [deliveries post start bodies outcomes]: the bodies are sent one after
    the other from request number [start] on; each is retried as long as
    the webhook answers 429 and fewer than MAX_RETRIES retries were made,
    and its outcome is the answer to its last request. *)
Fixpoint deliveries (requests_post : nat -> Payload -> Transport)
  (start : nat) (bodies : list Payload) (outcomes : list Outcome) : Prop :=
  match bodies, outcomes with
  | [], [] => True
  | md :: bodies', (n, answer) :: outcomes' =>
      (n <= Z.to_nat MAX_RETRIES)%nat /\
      (forall k, (k < n)%nat -> requests_post (start + k)%nat md = Response 429) /\
      answer = requests_post (start + n)%nat md /\
      (rate_limited answer = true -> n = Z.to_nat MAX_RETRIES) /\
      deliveries requests_post (start + S n)%nat bodies' outcomes'
  | _, _ => False
  end.

(** Every body as many times as it was sent. *)
Fixpoint repeated (bodies : list Payload) (outcomes : list Outcome)
  : list Payload :=
  match bodies, outcomes with
  | md :: bodies', (n, _) :: outcomes' =>
      repeat md (S n) ++ repeated bodies' outcomes'
  | _, _ => []
  end.

(** ** Sample runs *)

Module Sample.

(** A store whose [confidence] column already holds floats. *)
Definition as_float (x : spec_float) : spec_float := x.

Definition always_limited : nat -> Payload -> Transport :=
  fun _ _ => Response 429.

Definition limited_thrice : nat -> Payload -> Transport :=
  fun k _ => if Nat.ltb k 3 then Response 429 else Response 200.

Definition not_found : nat -> Payload -> Transport :=
  fun _ _ => Response 404.

Definition unreachable : nat -> Payload -> Transport :=
  fun _ _ => RequestException "connection refused".

(** Rejects the first request of the run and accepts the others. *)
Definition rejects_first : nat -> Payload -> Transport :=
  fun k _ => if Nat.eqb k 0 then Response 404 else Response 200.

Definition note : Payload :=
  mkPayload "likes noodles" "fact" (Some 5) float_zero (Some 1) "active" "no"
            "postgresql_export".

Definition lore : Row spec_float :=
  mkRow "likes noodles" (Some "Fact") (Some 50) None (Some 2) (Some "ACTIVE")
        (Some true) None.

Definition story : Row spec_float :=
  mkRow "met the chef" (Some "STORY") (Some 10) (Some (S754_zero true)) (Some 1)
        (Some "ACTIVE") (Some false) (Some "chat").

Definition stale : Row spec_float :=
  mkRow "old rumour" None (Some 90) None None (Some "ARCHIVED") None None.

Definition table : list (Entry spec_float) :=
  [ mkEntry story 7; mkEntry stale 8; mkEntry lore 3 ].

Definition archive : list (Entry spec_float) := [ mkEntry stale 8 ].

Definition always_accepted : nat -> Payload -> Transport :=
  fun _ _ => Response 200.

(** A driver that connects by URL only. *)
Definition url_only (args : ConnectArgs) : Store spec_float :=
  match args with
  | ByUrl _ => Connected (Sees table) (Sees table)
  | ByConfig _ => ConnectError "could not translate host name"
  end.

(** The table once the story was archived by someone else. *)
Definition only_lore : list (Entry spec_float) := [ mkEntry lore 3 ].

(** The table with one more active entry. *)
Definition grown : list (Entry spec_float) := mkEntry lore 9 :: table.

Definition placeholders : DbConfig :=
  mkDbConfig "your-host.internal" "your-database" "your-username"
             "your-password" 5432.

End Sample.

(** * Properties *)

Section Properties.

Context {Numeric : Type}.
Variable py_float : Numeric -> spec_float.
Variable requests_post : nat -> Payload -> Transport.

Lemma count_app f l1 l2 : count f (l1 ++ l2) = (count f l1 + count f l2)%nat.
Proof. unfold count. rewrite filter_app, length_app. reflexivity. Qed.

Lemma advance_advance w n1 d1 n2 d2 :
  advance (advance w n1 d1) n2 d2 = advance w (n1 + n2) (d1 ++ d2).
Proof.
  unfold advance; simpl. f_equal; [lia | now rewrite app_assoc].
Qed.

Lemma advance_nothing w : advance w 0 [] = w.
Proof.
  destruct w; unfold advance; simpl. now rewrite Nat.add_0_r, app_nil_r.
Qed.

Lemma emit_advance e w : emit e w = (tt, advance w 0 [e]).
Proof. unfold emit, advance. now rewrite Nat.add_0_r. Qed.

Lemma post_advance md w :
  post requests_post md w =
  (requests_post (sent w) md, advance w 1 [Post WEBHOOK_URL md REQUEST_TIMEOUT]).
Proof. unfold post, advance. now rewrite Nat.add_1_r. Qed.

(** One call of [send_memory], world made explicit. *)
Lemma send_memory_step md rc w :
  send_memory requests_post md rc w =
  let w1 := advance w 1 [Post WEBHOOK_URL md REQUEST_TIMEOUT] in
  match requests_post (sent w) md with
  | Response code =>
      if code =? 200 then (true, w1)
      else if code =? 429 then
        if rc <? MAX_RETRIES then
          send_memory requests_post md (rc + 1)
            (advance w1 0 [Print (RateLimitedLine DELAY_ON_ERROR (rc + 1));
                           Sleep DELAY_ON_ERROR])
        else
          (false, advance w1 0 [Print (FailedAfterRetriesLine
                                         (prefix 50 (memoryContent md)))])
      else (false, advance w1 0 [Print (HttpLine code (prefix 50 (memoryContent md)))])
  | RequestException e => (false, advance w1 0 [Print (NetworkErrorLine e)])
  end.
Proof.
  rewrite send_memory_equation_1. unfold bind at 1. rewrite post_advance.
  cbv zeta. destruct (requests_post (sent w) md) as [code | e].
  - destruct (code =? 200); [reflexivity |].
    destruct (code =? 429).
    + destruct (Z_lt_dec rc MAX_RETRIES) as [Hlt | Hge].
      * apply Z.ltb_lt in Hlt. rewrite Hlt.
        unfold bind, print, sleep. rewrite !emit_advance, advance_advance.
        reflexivity.
      * apply Z.ltb_nlt in Hge. rewrite Hge.
        unfold bind, print, ret. now rewrite emit_advance.
    + unfold bind, print, ret. now rewrite emit_advance.
  - unfold bind, print, ret. now rewrite emit_advance.
Qed.

(** Whatever the webhook answers, a call ends, after at most one request
    per retry still allowed plus one, having slept once before each request
    but the first. *)
Lemma send_memory_effect md rc w :
  exists b n delta,
    send_memory requests_post md rc w = (b, advance w n delta) /\
    delivery_effect md rc n delta.
Proof.
  remember (retry_measure rc) as m eqn:Hm.
  revert rc Hm w. induction m as [| m IH]; intros rc Hm w;
    rewrite send_memory_step; cbv zeta;
    destruct (requests_post (sent w) md) as [code | e].
  all: try (exists false, 1%nat; eexists; rewrite advance_advance; split;
            [reflexivity | unfold delivery_effect; repeat split;
                           try reflexivity; try lia; eexists; reflexivity]).
  all: destruct (code =? 200);
    [ exists true, 1%nat; eexists; split;
      [reflexivity | unfold delivery_effect; repeat split;
                     try reflexivity; try lia; eexists; reflexivity] |].
  all: destruct (code =? 429);
    [| exists false, 1%nat; eexists; rewrite advance_advance; split;
       [reflexivity | unfold delivery_effect; repeat split;
                      try reflexivity; try lia; eexists; reflexivity] ].
  all: destruct (Z.ltb_spec rc MAX_RETRIES) as [Hlt | Hge];
    try (exists false, 1%nat; eexists; rewrite advance_advance; split;
         [reflexivity | unfold delivery_effect; repeat split;
                        try reflexivity; try lia; eexists; reflexivity]).
  - unfold retry_measure in Hm. lia.
  - destruct (IH (rc + 1)) with
      (w := advance (advance w 1 [Post WEBHOOK_URL md REQUEST_TIMEOUT]) 0
              [Print (RateLimitedLine DELAY_ON_ERROR (rc + 1));
               Sleep DELAY_ON_ERROR])
      as (b & n & delta & Hrun & Hatt & Hn & Hsl & Hcd & Hpc & rest & Hrest).
    { unfold retry_measure in *. lia. }
    exists b, (S n). eexists. split.
    + rewrite Hrun, !advance_advance. reflexivity.
    + assert (Hm' : retry_measure rc = S (retry_measure (rc + 1)))
        by (unfold retry_measure in *; lia).
      unfold delivery_effect. rewrite Hm'.
      change ([Post WEBHOOK_URL md REQUEST_TIMEOUT] ++
              [Print (RateLimitedLine DELAY_ON_ERROR (rc + 1));
               Sleep DELAY_ON_ERROR]) with (retry_round md (rc + 1)).
      unfold attempts, sleeps, cooldowns, pacings in *.
      rewrite !count_app, Hatt, Hsl, Hcd, Hpc.
      repeat split; try (cbn; lia).
      eexists. reflexivity.
Qed.

(** *** The loop *)

Lemma loop_body_run total i row c w ok w1 :
  send_memory requests_post (memory_data_of py_float row) 0 w = (ok, w1) ->
  loop_body py_float requests_post total i row c w =
  (tally ok (batch_due total i) c,
   advance w1 0 (turn_report total i (memory_data_of py_float row) c ok)).
Proof.
  intros Hsend. unfold loop_body, turn_report. cbv zeta.
  unfold bind at 1. rewrite Hsend.
  fold (batch_due total i).
  destruct ok, (batch_due total i);
    unfold bind, print, sleep, ret, tally; cbn [success_count fail_count batch_count];
    rewrite ?emit_advance, ?advance_advance; cbn [app Nat.add];
    rewrite ?advance_nothing; reflexivity.
Qed.

Lemma export_loop_app total l1 : forall l2 i c w,
  export_loop py_float requests_post total i (l1 ++ l2) c w =
  let (c1, w1) := export_loop py_float requests_post total i l1 c w in
  export_loop py_float requests_post total (i + Z.of_nat (List.length l1)) l2 c1 w1.
Proof.
  induction l1 as [| row l1 IH]; intros l2 i c w.
  - cbn. now rewrite Z.add_0_r.
  - cbn [app export_loop List.length]. unfold bind.
    destruct (loop_body py_float requests_post total i row c w) as [c1 w1].
    rewrite IH. replace (i + 1 + Z.of_nat (List.length l1))
      with (i + Z.of_nat (S (List.length l1))) by lia.
    reflexivity.
Qed.

(** What a run of the loop over [memories] does to the counters [c] and
    adds to the log. *)
Definition loop_effect (total i : Z) (memories : list (Row Numeric))
  (c c' : Counters) (n : nat) (delta : list Event) : Prop :=
  success_count c' + fail_count c' =
    success_count c + fail_count c + Z.of_nat (List.length memories) /\
  success_count c <= success_count c' /\
  fail_count c <= fail_count c' /\
  batch_count c' =
    batch_count c + Z.of_nat (turns_due total i (List.length memories)) /\
  pacings delta = turns_due total i (List.length memories) /\
  attempts delta = n /\
  (List.length memories <= n <= 4 * List.length memories)%nat /\
  Forall (fun row =>
            In (Post WEBHOOK_URL (memory_data_of py_float row) REQUEST_TIMEOUT)
               delta) memories.

Lemma export_loop_effect memories : forall total i c w,
  exists c' n delta,
    export_loop py_float requests_post total i memories c w =
      (c', advance w n delta) /\
    loop_effect total i memories c c' n delta.
Proof.
  induction memories as [| row rest IH]; intros total i c w.
  - exists c, 0%nat, []. split.
    + cbn. unfold ret. now rewrite advance_nothing.
    + unfold loop_effect. cbn. repeat split; try lia. constructor.
  - destruct (send_memory_effect (memory_data_of py_float row) 0 w)
      as (ok & n1 & d1 & Hsend & Hatt & Hn1 & _ & _ & Hpc & tail & Htail).
    change (retry_measure 0) with 3%nat in Hn1.
    cbn [export_loop]. unfold bind at 1.
    rewrite (loop_body_run total i row c w ok _ Hsend), advance_advance.
    assert (Hrep : attempts (turn_report total i (memory_data_of py_float row) c ok) = 0%nat /\
                   pacings (turn_report total i (memory_data_of py_float row) c ok) =
                   if batch_due total i then 1%nat else 0%nat).
    { unfold turn_report. destruct ok, (batch_due total i); split; reflexivity. }
    destruct Hrep as [Hra Hrp].
    generalize dependent (turn_report total i (memory_data_of py_float row) c ok).
    intros report Hra Hrp.
    destruct (IH total (i + 1) (tally ok (batch_due total i) c)
                (advance w (n1 + 0) (d1 ++ report)))
      as (c' & n2 & d2 & Hloop & Hsum & Hs & Hf & Hb & Hpc2 & Hatt2 & Hn2 & Hall).
    exists c', (n1 + n2)%nat, (d1 ++ report ++ d2). split.
    + rewrite Hloop, advance_advance, Nat.add_0_r, <- app_assoc. reflexivity.
    + unfold loop_effect, attempts, pacings in *.
      cbn [List.length turns_due].
      rewrite !count_app, Hatt, Hatt2, Hra, Hpc, Hpc2, Hrp.
      unfold tally in *; cbn [success_count fail_count batch_count] in *.
      split; [destruct ok; lia |].
      split; [destruct ok; lia |].
      split; [destruct ok; lia |].
      split; [destruct (batch_due total i); lia |].
      split; [reflexivity |].
      split; [reflexivity |].
      split; [lia |].
      constructor.
      * rewrite Htail. left. reflexivity.
      * eapply Forall_impl; [| exact Hall].
        intros r Hin. apply in_or_app. right. apply in_or_app. now right.
Qed.

(** With one memory per batch, every turn whose index is below [total]
    takes the delay. *)
Lemma turns_due_closed total turns : forall i,
  Z.of_nat (turns_due total i turns) =
  Z.max 0 (Z.min (i + Z.of_nat turns) total - i).
Proof.
  induction turns as [| t IH]; intros i.
  - cbn [turns_due]. lia.
  - cbn [turns_due]. rewrite Nat2Z.inj_add, IH.
    unfold batch_due, BATCH_SIZE. rewrite Z.mod_1_r. cbn [Z.eqb andb].
    destruct (Z.ltb_spec i total); lia.
Qed.

(** *** The queries *)

Lemma insert_entry_length (e : Entry Numeric) sorted :
  List.length (insert_entry e sorted) = S (List.length sorted).
Proof.
  induction sorted as [| f rest IH]; [reflexivity |].
  cbn [insert_entry]. destruct (sorts_before e f); cbn [List.length]; congruence.
Qed.

Lemma order_by_length (entries : list (Entry Numeric)) :
  List.length (order_by entries) = List.length entries.
Proof.
  induction entries as [| e rest IH]; [reflexivity |].
  cbn [order_by fold_right]. fold (order_by rest).
  now rewrite insert_entry_length, IH.
Qed.

(** On one and the same table, the count of the first statement is the
    number of rows of the second. *)
Lemma select_count_memories (table : list (Entry Numeric)) :
  select_count table = Z.of_nat (List.length (select_memories table)).
Proof.
  unfold select_count, select_memories.
  now rewrite length_map, order_by_length.
Qed.

(** *** The whole run *)

Lemma export_memories_run counted fetched w c w1 :
  export_loop py_float requests_post (select_count counted) 1
    (select_memories fetched) no_counts
    (advance w 0 (header (select_count counted))) = (c, w1) ->
  export_memories py_float requests_post
    (Connected (Sees counted) (Sees fetched)) w =
  (tt, advance w1 0 (final_summary (select_count counted) c ++
                     congratulation (select_count counted) c)).
Proof.
  intros Hloop. unfold export_memories. cbv beta iota zeta.
  unfold print, bind at 1. rewrite emit_advance.
  unfold bind at 1. rewrite emit_advance, advance_advance.
  unfold bind at 1. cbn [app Nat.add]. fold (header (select_count counted)).
  rewrite Hloop.
  unfold bind. rewrite !emit_advance, !advance_advance. cbn [app Nat.add].
  unfold congratulation, final_summary.
  destruct ((fail_count c =? 0) && (select_count counted >? 0)).
  - rewrite !emit_advance, !advance_advance. reflexivity.
  - unfold ret. cbn [app]. reflexivity.
Qed.

(** The run over a connected store whose two statements go through, in one
    piece. *)
Lemma export_memories_effect counted fetched w :
  exists c n delta,
    export_loop py_float requests_post (select_count counted) 1
      (select_memories fetched) no_counts
      (advance w 0 (header (select_count counted))) =
      (c, advance (advance w 0 (header (select_count counted))) n delta) /\
    export_memories py_float requests_post
      (Connected (Sees counted) (Sees fetched)) w =
      (tt, advance w n (header (select_count counted) ++ delta ++
                        final_summary (select_count counted) c ++
                        congratulation (select_count counted) c)) /\
    loop_effect (select_count counted) 1 (select_memories fetched)
      no_counts c n delta.
Proof.
  destruct (export_loop_effect (select_memories fetched) (select_count counted)
              1 no_counts (advance w 0 (header (select_count counted))))
    as (c & n & delta & Hloop & Heffect).
  exists c, n, delta. split; [exact Hloop | split; [| exact Heffect]].
  rewrite (export_memories_run _ _ _ _ _ Hloop), !advance_advance.
  cbn [Nat.add]. now rewrite Nat.add_0_r.
Qed.

Lemma firstn_snoc {A} (l : list A) : forall k x,
  nth_error l k = Some x -> firstn (S k) l = firstn k l ++ [x].
Proof.
  induction l as [| y l IH]; intros [| k] x Hx; try discriminate.
  - injection Hx as ->. reflexivity.
  - cbn [firstn app]. f_equal. now apply IH.
Qed.

(** The loop stopped after [k] rows and resumed gives the loop. *)
Lemma export_loop_split total memories k c w :
  export_loop py_float requests_post total 1 memories c w =
  let (ck, wk) :=
    export_loop py_float requests_post total 1 (firstn k memories) c w in
  export_loop py_float requests_post total
    (1 + Z.of_nat (List.length (firstn k memories))) (skipn k memories) ck wk.
Proof.
  rewrite <- (firstn_skipn k memories) at 1. apply export_loop_app.
Qed.

(** The lines around the loop hold no wait and no request. *)
Lemma run_frame f total c delta :
  (forall l, f (Print l) = false) ->
  count f (header total ++ delta ++ final_summary total c ++
           congratulation total c) = count f delta.
Proof.
  intros Hf. rewrite !count_app. unfold congratulation, count.
  destruct ((fail_count c =? 0) && (total >? 0)); cbn; rewrite !Hf; cbn; lia.
Qed.

Lemma turns_due_prefix len k :
  turns_due (Z.of_nat len) 1 (Nat.min k len) = Nat.min k (len - 1).
Proof.
  apply Nat2Z.inj. rewrite turns_due_closed. lia.
Qed.

(** The three ways a call on a 200 or a 429 goes on. *)
Lemma send_memory_accepted md rc w :
  requests_post (sent w) md = Response 200 ->
  send_memory requests_post md rc w =
  (true, advance w 1 [Post WEBHOOK_URL md REQUEST_TIMEOUT]).
Proof.
  intros Hnet. rewrite send_memory_step, Hnet. reflexivity.
Qed.

Lemma send_memory_retry md rc w :
  requests_post (sent w) md = Response 429 ->
  rc < MAX_RETRIES ->
  send_memory requests_post md rc w =
  send_memory requests_post md (rc + 1) (advance w 1 (retry_round md (rc + 1))).
Proof.
  intros Hnet Hrc. rewrite send_memory_step, Hnet. cbv zeta.
  apply Z.ltb_lt in Hrc. rewrite Hrc. cbn [Z.eqb Pos.eqb].
  now rewrite advance_advance.
Qed.

Lemma send_memory_give_up md rc w :
  requests_post (sent w) md = Response 429 ->
  MAX_RETRIES <= rc ->
  send_memory requests_post md rc w =
  (false, advance w 1 [ Post WEBHOOK_URL md REQUEST_TIMEOUT;
                        Print (FailedAfterRetriesLine
                                 (prefix 50 (memoryContent md))) ]).
Proof.
  intros Hnet Hrc. rewrite send_memory_step, Hnet. cbv zeta.
  apply Z.ltb_ge in Hrc. rewrite Hrc. cbn [Z.eqb Pos.eqb].
  now rewrite advance_advance.
Qed.

(** C2. A record for which the webhook answers 429 to each of the
    MAX_RETRIES + 1 requests made for it: [send_memory], called with
    retry_count = 0, returns False after four requests, having waited
    DELAY_ON_ERROR exactly MAX_RETRIES times and not at all after the last
    request. *)
Theorem send_memory_rate_limit_exhausted md w :
  (forall k, (k < Z.to_nat (MAX_RETRIES + 1))%nat ->
             requests_post (sent w + k)%nat md = Response 429) ->
  let delta :=
    retry_round md 1 ++ retry_round md 2 ++ retry_round md 3 ++
    [ Post WEBHOOK_URL md REQUEST_TIMEOUT;
      Print (FailedAfterRetriesLine (prefix 50 (memoryContent md))) ] in
  send_memory requests_post md 0 w = (false, advance w 4 delta) /\
  attempts delta = Z.to_nat (MAX_RETRIES + 1) /\
  cooldowns delta = Z.to_nat MAX_RETRIES /\
  sleeps delta = Z.to_nat MAX_RETRIES /\
  sleeps (after_last_post delta) = 0%nat.
Proof.
  intros Hnet delta.
  assert (H0 := Hnet 0%nat ltac:(cbn; lia)).
  assert (H1 := Hnet 1%nat ltac:(cbn; lia)).
  assert (H2 := Hnet 2%nat ltac:(cbn; lia)).
  assert (H3 := Hnet 3%nat ltac:(cbn; lia)).
  rewrite Nat.add_0_r in H0.
  split; [| repeat split; reflexivity].
  rewrite send_memory_retry by (assumption || reflexivity).
  rewrite send_memory_retry by (exact H1 || reflexivity).
  rewrite advance_advance.
  rewrite send_memory_retry by (exact H2 || reflexivity).
  rewrite advance_advance.
  rewrite send_memory_give_up by (exact H3 || discriminate).
  rewrite !advance_advance, <- !app_assoc. reflexivity.
Qed.

(** C3. A record for which the webhook answers 429 exactly MAX_RETRIES
    times and 200 to the next request: [send_memory], called with
    retry_count = 0, returns True, having waited DELAY_ON_ERROR exactly
    MAX_RETRIES times. *)
Theorem send_memory_accepted_on_last_retry md w :
  (forall k, (k < Z.to_nat MAX_RETRIES)%nat ->
             requests_post (sent w + k)%nat md = Response 429) ->
  requests_post (sent w + Z.to_nat MAX_RETRIES)%nat md = Response 200 ->
  let delta :=
    retry_round md 1 ++ retry_round md 2 ++ retry_round md 3 ++
    [ Post WEBHOOK_URL md REQUEST_TIMEOUT ] in
  send_memory requests_post md 0 w = (true, advance w 4 delta) /\
  attempts delta = Z.to_nat (MAX_RETRIES + 1) /\
  cooldowns delta = Z.to_nat MAX_RETRIES /\
  sleeps delta = Z.to_nat MAX_RETRIES.
Proof.
  intros Hnet H3 delta.
  assert (H0 := Hnet 0%nat ltac:(cbn; lia)).
  assert (H1 := Hnet 1%nat ltac:(cbn; lia)).
  assert (H2 := Hnet 2%nat ltac:(cbn; lia)).
  rewrite Nat.add_0_r in H0.
  change (Z.to_nat MAX_RETRIES) with 3%nat in H3.
  split; [| repeat split; reflexivity].
  rewrite send_memory_retry by (assumption || reflexivity).
  rewrite send_memory_retry by (exact H1 || reflexivity).
  rewrite advance_advance.
  rewrite send_memory_retry by (exact H2 || reflexivity).
  rewrite advance_advance.
  rewrite send_memory_accepted by exact H3.
  rewrite !advance_advance, <- !app_assoc. reflexivity.
Qed.

(** C4. When the first request made for a record is answered with a
    status other than 200 and 429, or raises a RequestException,
    [send_memory] returns False at once: one request, the line reporting
    it, no wait. *)
Theorem send_memory_no_retry_on_rejection md rc w :
  match requests_post (sent w) md with
  | Response code => code <> 200 /\ code <> 429
  | RequestException _ => True
  end ->
  let delta :=
    [ Post WEBHOOK_URL md REQUEST_TIMEOUT;
      Print (match requests_post (sent w) md with
             | Response code => HttpLine code (prefix 50 (memoryContent md))
             | RequestException e => NetworkErrorLine e
             end) ] in
  send_memory requests_post md rc w = (false, advance w 1 delta) /\
  attempts delta = 1%nat /\
  sleeps delta = 0%nat /\
  cooldowns delta = 0%nat.
Proof.
  intros Hout delta. split; [| repeat split; reflexivity].
  rewrite send_memory_step. cbv zeta. subst delta.
  destruct (requests_post (sent w) md) as [code | e].
  - destruct Hout as [H200 H429].
    apply Z.eqb_neq in H200, H429. rewrite H200, H429.
    now rewrite advance_advance.
  - now rewrite advance_advance.
Qed.

(** C9. [send_memory], called with retry_count = 0, returns whatever the
    webhook answers, after at least one and at most MAX_RETRIES + 1 = 4
    requests; a recursive call is made only below the bound, with a
    retry_count one larger, which lowers the number of retries left. *)
Theorem send_memory_terminates md w :
  (exists b n delta,
      send_memory requests_post md 0 w = (b, advance w n delta) /\
      attempts delta = n /\
      (1 <= n <= Z.to_nat (MAX_RETRIES + 1))%nat) /\
  (forall rc, rc < MAX_RETRIES ->
              (retry_measure (rc + 1) < retry_measure rc)%nat).
Proof.
  split.
  - destruct (send_memory_effect md 0 w) as (b & n & delta & Hrun & Hatt & Hn & _).
    exists b, n, delta. repeat split; try assumption; try lia.
    change (retry_measure 0) with 3%nat in Hn.
    change (Z.to_nat (MAX_RETRIES + 1)) with 4%nat. lia.
  - intros rc Hrc. unfold retry_measure, MAX_RETRIES in *. lia.
Qed.

(** C1. At every point of the loop, the rows handled so far being the
    first k of the fetched list, success_count + fail_count is the number of
    rows handled so far, and the loop goes on from there with the rows left;
    at the end of the run the two counters printed in the summary add up to
    the number of rows fetched. *)
Theorem counters_track_processed_records :
  (forall total memories k w,
      exists ck nk dk,
        export_loop py_float requests_post total 1 (firstn k memories)
          no_counts w = (ck, advance w nk dk) /\
        success_count ck + fail_count ck =
          Z.of_nat (List.length (firstn k memories)) /\
        export_loop py_float requests_post total 1 memories no_counts w =
          export_loop py_float requests_post total
            (1 + Z.of_nat (List.length (firstn k memories)))
            (skipn k memories) ck (advance w nk dk)) /\
  (forall counted fetched w,
      exists c n delta,
        export_loop py_float requests_post (select_count counted) 1
          (select_memories fetched) no_counts
          (advance w 0 (header (select_count counted))) =
          (c, advance (advance w 0 (header (select_count counted))) n delta) /\
        export_memories py_float requests_post
          (Connected (Sees counted) (Sees fetched)) w =
          (tt, advance w n (header (select_count counted) ++ delta ++
                            final_summary (select_count counted) c ++
                            congratulation (select_count counted) c)) /\
        success_count c + fail_count c =
          Z.of_nat (List.length (select_memories fetched))).
Proof.
  split.
  - intros total memories k w.
    destruct (export_loop_effect (firstn k memories) total 1 no_counts w)
      as (ck & nk & dk & Hloop & Hsum & _).
    exists ck, nk, dk. split; [exact Hloop | split].
    + cbn [no_counts success_count fail_count] in Hsum. lia.
    + rewrite (export_loop_split total memories k), Hloop. reflexivity.
  - intros counted fetched w.
    destruct (export_memories_effect counted fetched w)
      as (c & n & delta & Hloop & Hrun & Hsum & _).
    exists c, n, delta.
    cbn [no_counts success_count fail_count] in Hsum.
    split; [exact Hloop | split; [exact Hrun | lia]].
Qed.

(** C5. Over a connected store whose statements go through, the run
    handles every fetched row and ends with the summary, whatever the
    webhook answers and whatever the COUNT statement counted: a request is made for
    each row; the counters add up to the number of rows; and wherever a row
    stands in the list, the loop reaches it, calls [send_memory] on it,
    counts a False in fail_count alone, and goes on with the rows after
    it. *)
Theorem export_never_aborts counted fetched w :
  let total := select_count counted in
  let memories := select_memories fetched in
  let w0 := advance w 0 (header total) in
  exists c n delta,
    export_loop py_float requests_post total 1 memories no_counts w0 =
      (c, advance w0 n delta) /\
    export_memories py_float requests_post
      (Connected (Sees counted) (Sees fetched)) w =
      (tt, advance w n (header total ++ delta ++ final_summary total c ++
                        congratulation total c)) /\
    success_count c + fail_count c = Z.of_nat (List.length memories) /\
    Forall (fun row =>
              In (Post WEBHOOK_URL (memory_data_of py_float row) REQUEST_TIMEOUT)
                 delta) memories /\
    forall k row,
      nth_error memories k = Some row ->
      exists ck wk ok wk',
        export_loop py_float requests_post total 1 (firstn k memories)
          no_counts w0 = (ck, wk) /\
        send_memory requests_post (memory_data_of py_float row) 0 wk =
          (ok, wk') /\
        let i := 1 + Z.of_nat k in
        let ck' := tally ok (batch_due total i) ck in
        let wk'' :=
          advance wk' 0 (turn_report total i (memory_data_of py_float row) ck ok) in
        export_loop py_float requests_post total 1 (firstn (S k) memories)
          no_counts w0 = (ck', wk'') /\
        (ok = false ->
         fail_count ck' = fail_count ck + 1 /\
         success_count ck' = success_count ck) /\
        export_loop py_float requests_post total 1 memories no_counts w0 =
          export_loop py_float requests_post total (i + 1)
            (skipn (S k) memories) ck' wk''.
Proof.
  intros total memories w0.
  destruct (export_memories_effect counted fetched w)
    as (c & n & delta & Hloop & Hrun & Hsum & _ & _ & _ & _ & _ & _ & Hall).
  fold total memories w0 in Hloop, Hrun, Hsum, Hall.
  exists c, n, delta.
  split; [exact Hloop | split; [exact Hrun | split; [| split; [exact Hall |]]]].
  { cbn [no_counts success_count fail_count] in Hsum. lia. }
  intros k row Hrow.
  assert (Hk : List.length (firstn k memories) = k).
  { rewrite length_firstn. apply Nat.min_l, Nat.lt_le_incl.
    apply nth_error_Some. congruence. }
  destruct (export_loop py_float requests_post total 1 (firstn k memories)
              no_counts w0) as [ck wk] eqn:Hpre.
  destruct (send_memory requests_post (memory_data_of py_float row) 0 wk)
    as [ok wk'] eqn:Hsend.
  exists ck, wk, ok, wk'. split; [reflexivity | split; [exact Hsend |]].
  cbv zeta.
  assert (Hnext :
    export_loop py_float requests_post total 1 (firstn (S k) memories)
      no_counts w0 =
    (tally ok (batch_due total (1 + Z.of_nat k)) ck,
     advance wk' 0
       (turn_report total (1 + Z.of_nat k) (memory_data_of py_float row) ck ok))).
  { rewrite (firstn_snoc _ _ _ Hrow), export_loop_app, Hpre, Hk.
    cbn [export_loop]. unfold bind.
    rewrite (loop_body_run _ _ _ _ _ _ _ Hsend). reflexivity. }
  split; [exact Hnext | split].
  - intros ->. unfold tally. cbn [success_count fail_count]. split; reflexivity.
  - rewrite (export_loop_split total memories (S k)), Hnext.
    assert (HSk : List.length (firstn (S k) memories) = S k).
    { rewrite length_firstn. apply Nat.min_l. apply nth_error_Some. congruence. }
    rewrite HSk. replace (1 + Z.of_nat (S k)) with (1 + Z.of_nat k + 1) by lia.
    reflexivity.
Qed.

(** C8. The dict built from a row is a function of the row alone, defined
    on every row; on a row with type 'Fact', confidence None, is_protected
    True and source None it has memoryType 'fact', confidence 0.0,
    isProtected 'yes' and source 'postgresql_export', the other columns
    passing as they are (status lowered, 'active' when empty). *)
Theorem memory_data_of_protected_fact content importance support_count status :
  memory_data_of py_float
    (mkRow content (Some "Fact") importance None support_count status
           (Some true) None) =
  {| memoryContent := content;
     memoryType := "fact";
     p_importance := importance;
     p_confidence := float_zero;
     supportCount := support_count;
     p_status := match status with
                 | Some (String c s) => lower (String c s)
                 | _ => "active"
                 end;
     isProtected := "yes";
     p_source := "postgresql_export" |}.
Proof.
  unfold memory_data_of. cbn.
  destruct status as [[| c s] |]; reflexivity.
Qed.

End Properties.


(** * The properties on the sample runs *)

(** C2 on a webhook that always answers 429. *)
Lemma send_memory_rate_limit_exhausted_witness :
  (forall k, (k < Z.to_nat (MAX_RETRIES + 1))%nat ->
             Sample.always_limited (sent start + k)%nat Sample.note =
             Response 429) /\
  fst (send_memory Sample.always_limited Sample.note 0 start) = false /\
  cooldowns (log (snd (send_memory Sample.always_limited Sample.note 0 start))) =
  3%nat.
Proof.
  assert (Hnet : forall k, (k < Z.to_nat (MAX_RETRIES + 1))%nat ->
                           Sample.always_limited (sent start + k)%nat Sample.note =
                           Response 429) by (intros; reflexivity).
  split; [exact Hnet |].
  destruct (send_memory_rate_limit_exhausted Sample.always_limited Sample.note
              start Hnet) as (Hrun & _ & Hcool & _).
  rewrite Hrun. split; [reflexivity | exact Hcool].
Defined.

(** C3 on a webhook that answers 429 three times, then 200. *)
Lemma send_memory_accepted_on_last_retry_witness :
  (forall k, (k < Z.to_nat MAX_RETRIES)%nat ->
             Sample.limited_thrice (sent start + k)%nat Sample.note =
             Response 429) /\
  Sample.limited_thrice (sent start + Z.to_nat MAX_RETRIES)%nat Sample.note =
  Response 200 /\
  fst (send_memory Sample.limited_thrice Sample.note 0 start) = true /\
  cooldowns (log (snd (send_memory Sample.limited_thrice Sample.note 0 start))) =
  3%nat.
Proof.
  assert (Hnet : forall k, (k < Z.to_nat MAX_RETRIES)%nat ->
                           Sample.limited_thrice (sent start + k)%nat Sample.note =
                           Response 429).
  { intros k Hk. unfold Sample.limited_thrice. cbn [sent start Nat.add].
    apply Nat.ltb_lt in Hk. change (Z.to_nat MAX_RETRIES) with 3%nat in Hk.
    now rewrite Hk. }
  split; [exact Hnet | split; [reflexivity |]].
  destruct (send_memory_accepted_on_last_retry Sample.limited_thrice Sample.note
              start Hnet eq_refl) as (Hrun & _ & Hcool & _).
  rewrite Hrun. split; [reflexivity | exact Hcool].
Defined.

(** C4 on a webhook that answers 404. *)
Lemma send_memory_no_retry_on_rejection_witness :
  Sample.not_found (sent start) Sample.note = Response 404 /\
  send_memory Sample.not_found Sample.note 0 start =
  (false, advance start 1 [ Post WEBHOOK_URL Sample.note REQUEST_TIMEOUT;
                            Print (HttpLine 404 "likes noodles") ]).
Proof.
  split; [reflexivity |].
  apply (send_memory_no_retry_on_rejection Sample.not_found Sample.note 0 start).
  cbn. split; discriminate.
Defined.

(** C9 on a webhook that always answers 429: the first retry lowers the
    measure. *)
Lemma send_memory_terminates_witness :
  0 < MAX_RETRIES /\ (retry_measure (0 + 1) < retry_measure 0)%nat.
Proof.
  split; [reflexivity |].
  apply (proj2 (send_memory_terminates Sample.always_limited Sample.note start) 0).
  reflexivity.
Defined.

(** C5 on the sample table, the webhook rejecting the first request: the
    first row is counted as failed and the second is sent all the same. *)
Lemma export_never_aborts_witness :
  nth_error (select_memories Sample.table) 0 = Some Sample.lore /\
  exists ck wk wk',
    send_memory Sample.rejects_first (memory_data_of Sample.as_float Sample.lore)
      0 wk = (false, wk') /\
    export_loop Sample.as_float Sample.rejects_first
      (select_count Sample.table) 1 (select_memories Sample.table) no_counts
      (advance start 0 (header (select_count Sample.table))) =
    export_loop Sample.as_float Sample.rejects_first
      (select_count Sample.table) 2 [Sample.story]
      (mkCounters (success_count ck) (fail_count ck + 1) (batch_count ck + 1))
      (advance wk' 0 [ Print (BatchCompleteLine (batch_count ck + 1)
                                DELAY_BETWEEN_BATCHES);
                       Sleep DELAY_BETWEEN_BATCHES ]).
Proof.
  split; [reflexivity |].
  destruct (export_never_aborts Sample.as_float Sample.rejects_first
              Sample.table Sample.table start)
    as (c & n & delta & _ & _ & _ & _ & Hturn).
  destruct (Hturn 0%nat Sample.lore eq_refl)
    as (ck & wk & ok & wk' & Hpre & Hsend & _ & _ & Hrest).
  injection Hpre as <- <-.
  assert (Hok : ok = false).
  { change (fst (ok, wk') = false). rewrite <- Hsend. reflexivity. }
  subst ok.
  exists no_counts, (advance start 0 (header (select_count Sample.table))), wk'.
  split; [exact Hsend | exact Hrest].
Defined.

(** * Further properties of the script *)

Section Further.

Context {Numeric : Type}.
Variable py_float : Numeric -> spec_float.
Variable requests_post : nat -> Payload -> Transport.

(** *** Reading a log piece by piece *)

Lemma slept_app l1 l2 : slept (l1 ++ l2) = slept l1 + slept l2.
Proof.
  induction l1 as [| [u p t | s | l] l1 IH]; cbn [app slept]; lia.
Qed.

Lemma posted_app l1 l2 : posted (l1 ++ l2) = posted l1 ++ posted l2.
Proof.
  induction l1 as [| [u p t | s | l] l1 IH]; cbn [app posted]; congruence.
Qed.

Lemma slept_retry_rounds md k : forall rc,
  slept (retry_rounds md rc k) = DELAY_ON_ERROR * Z.of_nat k.
Proof.
  induction k as [| k IH]; intros rc; [reflexivity |].
  cbn [retry_rounds]. rewrite slept_app, IH. cbn [retry_round slept]. lia.
Qed.

Lemma posted_retry_rounds md k : forall rc,
  posted (retry_rounds md rc k) = repeat md k.
Proof.
  induction k as [| k IH]; intros rc; [reflexivity |].
  cbn [retry_rounds]. rewrite posted_app, IH. reflexivity.
Qed.

Lemma count_retry_rounds f md k : forall rc,
  f (Post WEBHOOK_URL md REQUEST_TIMEOUT) = false ->
  f (Sleep DELAY_ON_ERROR) = false ->
  (forall retry, f (Print (RateLimitedLine DELAY_ON_ERROR retry)) = false) ->
  count f (retry_rounds md rc k) = 0%nat.
Proof.
  intros rc Hpost Hsleep Hline. revert rc.
  induction k as [| k IH]; intros rc; [reflexivity |].
  cbn [retry_rounds]. rewrite count_app, IH.
  unfold count, retry_round. cbn [filter]. now rewrite Hpost, Hsleep, Hline.
Qed.

Lemma attempts_retry_rounds md k : forall rc,
  attempts (retry_rounds md rc k) = k.
Proof.
  induction k as [| k IH]; intros rc; [reflexivity |].
  cbn [retry_rounds]. unfold attempts in *. rewrite count_app, IH. reflexivity.
Qed.

Lemma sleeps_retry_rounds md k : forall rc,
  sleeps (retry_rounds md rc k) = k /\ cooldowns (retry_rounds md rc k) = k.
Proof.
  induction k as [| k IH]; intros rc; [split; reflexivity |].
  cbn [retry_rounds]. unfold sleeps, cooldowns in *. rewrite !count_app.
  destruct (IH (rc + 1)) as [-> ->]. split; reflexivity.
Qed.

Lemma slept_closing md answer : slept (closing md answer) = 0.
Proof.
  destruct answer as [code | e]; cbn [closing]; [| reflexivity].
  destruct (code =? 200), (code =? 429); reflexivity.
Qed.

Lemma posted_closing md answer : posted (closing md answer) = [].
Proof.
  destruct answer as [code | e]; cbn [closing]; [| reflexivity].
  destruct (code =? 200), (code =? 429); reflexivity.
Qed.

Lemma failure_lines_closing md answer :
  count is_failure_line (closing md answer) =
  if accepted answer then 0%nat else 1%nat.
Proof.
  destruct answer as [code | e]; cbn [closing accepted]; [| reflexivity].
  destruct (code =? 200), (code =? 429); reflexivity.
Qed.

Lemma count_closing f md answer :
  (forall head, f (Print (FailedAfterRetriesLine head)) = false) ->
  (forall code head, f (Print (HttpLine code head)) = false) ->
  (forall e, f (Print (NetworkErrorLine e)) = false) ->
  count f (closing md answer) = 0%nat.
Proof.
  intros H1 H2 H3. unfold count.
  destruct answer as [code | e]; cbn [closing].
  - destruct (code =? 200), (code =? 429); cbn [filter];
      rewrite ?H1, ?H2; reflexivity.
  - cbn [filter]. now rewrite H3.
Qed.

(** *** send_memory, whatever the webhook answers *)

(** A call makes [n] retries, each on a 429, and returns on the answer to
    the request after them; that answer is a 429 only when no retry is
    left. *)
Lemma send_memory_trace md rc w :
  exists n,
    (n <= retry_measure rc)%nat /\
    (forall k, (k < n)%nat ->
               requests_post (sent w + k)%nat md = Response 429) /\
    (rate_limited (requests_post (sent w + n)%nat md) = true ->
     n = retry_measure rc) /\
    send_memory requests_post md rc w =
    (accepted (requests_post (sent w + n)%nat md),
     advance w (S n)
       (retry_rounds md rc n ++
        Post WEBHOOK_URL md REQUEST_TIMEOUT ::
        closing md (requests_post (sent w + n)%nat md))).
Proof.
  remember (retry_measure rc) as m eqn:Hm.
  revert rc Hm w. induction m as [| m IH]; intros rc Hm w.
  - exists 0%nat. rewrite Nat.add_0_r.
    split; [lia | split; [intros k Hk; lia | split; [reflexivity |]]].
    rewrite send_memory_step. cbv zeta.
    assert (Hrc : (rc <? MAX_RETRIES) = false)
      by (apply Z.ltb_ge; unfold retry_measure in Hm; lia).
    rewrite Hrc.
    destruct (requests_post (sent w) md) as [code | e];
      cbn [accepted closing retry_rounds app];
      [destruct (code =? 200); [reflexivity |]; destruct (code =? 429) |];
      rewrite advance_advance; reflexivity.
  - destruct (rate_limited (requests_post (sent w) md)) eqn:Hfirst.
    + (* a 429 with retries left *)
      destruct (requests_post (sent w) md) as [code | e] eqn:Hanswer;
        [| discriminate].
      cbn [rate_limited] in Hfirst. apply Z.eqb_eq in Hfirst. subst code.
      assert (Hrc : rc < MAX_RETRIES) by (unfold retry_measure in Hm; lia).
      assert (Hm' : m = retry_measure (rc + 1))
        by (unfold retry_measure in *; lia).
      destruct (IH (rc + 1) Hm' (advance w 1 (retry_round md (rc + 1))))
        as (n & Hn & Hbefore & Hlast & Hrun).
      cbn [sent advance] in Hbefore, Hlast, Hrun.
      replace (sent w + 1 + n)%nat with (sent w + S n)%nat in Hlast, Hrun by lia.
      exists (S n). split; [lia | split; [| split]].
      * intros [| k] Hk; [now rewrite Nat.add_0_r |].
        replace (sent w + S k)%nat with (sent w + 1 + k)%nat by lia.
        apply Hbefore. lia.
      * intros H. f_equal. now apply Hlast.
      * rewrite (send_memory_retry requests_post md rc w Hanswer Hrc), Hrun.
        rewrite advance_advance. cbn [retry_rounds Nat.add].
        now rewrite <- app_assoc.
    + exists 0%nat. rewrite Nat.add_0_r.
      split; [lia | split; [intros k Hk; lia | split; [congruence |]]].
      rewrite send_memory_step. cbv zeta.
      destruct (requests_post (sent w) md) as [code | e];
        cbn [accepted closing retry_rounds app rate_limited] in *.
      * rewrite Hfirst. destruct (code =? 200); [reflexivity |].
        now rewrite advance_advance.
      * now rewrite advance_advance.
Qed.

(** *** The loop, whatever the webhook answers *)

Lemma turn_report_log total i md c ok :
  posted (turn_report total i md c ok) = [] /\
  slept (turn_report total i md c ok) =
    (if batch_due total i then DELAY_BETWEEN_BATCHES else 0) /\
  count is_sent_line (turn_report total i md c ok) =
    (if ok then 1%nat else 0%nat) /\
  count is_failure_line (turn_report total i md c ok) = 0%nat /\
  count is_error_line (turn_report total i md c ok) = 0%nat /\
  count is_all_exported (turn_report total i md c ok) = 0%nat /\
  attempts (turn_report total i md c ok) = 0%nat.
Proof.
  unfold turn_report. destruct ok, (batch_due total i); repeat split.
Qed.

(** What the loop over [memories] leaves in the log, the deliveries having
    gone as [outcomes] tells. *)
Definition loop_log (total i : Z) (memories : list (Row Numeric))
  (outcomes : list Outcome) (delta : list Event) : Prop :=
  posted delta = repeated (map (memory_data_of py_float) memories) outcomes /\
  slept delta =
    DELAY_ON_ERROR * Z.of_nat (retries_of outcomes) +
    DELAY_BETWEEN_BATCHES * Z.of_nat (turns_due total i (List.length memories)) /\
  count is_sent_line delta = delivered outcomes /\
  count is_failure_line delta = undelivered outcomes /\
  count is_error_line delta = 0%nat /\
  count is_all_exported delta = 0%nat /\
  attempts delta = requests_of outcomes.

Lemma export_loop_trace memories : forall total i c w,
  exists outcomes c' delta,
    deliveries requests_post (sent w)
      (map (memory_data_of py_float) memories) outcomes /\
    export_loop py_float requests_post total i memories c w =
      (c', advance w (requests_of outcomes) delta) /\
    success_count c' = success_count c + Z.of_nat (delivered outcomes) /\
    fail_count c' = fail_count c + Z.of_nat (undelivered outcomes) /\
    batch_count c' =
      batch_count c + Z.of_nat (turns_due total i (List.length memories)) /\
    loop_log total i memories outcomes delta.
Proof.
  induction memories as [| row rest IH]; intros total i c w.
  - exists [], c, []. cbn. unfold ret, loop_log.
    rewrite advance_nothing. repeat split; cbn; lia.
  - set (md := memory_data_of py_float row).
    destruct (send_memory_trace md 0 w) as (n & Hn & Hbefore & Hlast & Hsend).
    set (answer := requests_post (sent w + n)%nat md) in *.
    set (d1 := retry_rounds md 0 n ++
               Post WEBHOOK_URL md REQUEST_TIMEOUT :: closing md answer) in *.
    pose proof (turn_report_log total i md c (accepted answer))
      as (Hrp & Hrs & Hrsent & Hrfail & Hrerr & Hrall & Hratt).
    set (report := turn_report total i md c (accepted answer)) in *.
    destruct (IH total (i + 1) (tally (accepted answer) (batch_due total i) c)
                (advance w (S n + 0) (d1 ++ report)))
      as (outs & c' & d2 & Hdel & Hloop & Hs & Hf & Hb & Hlog).
    cbn [sent advance] in Hdel.
    replace (sent w + (S n + 0))%nat with (sent w + S n)%nat in Hdel by lia.
    exists ((n, answer) :: outs), c', (d1 ++ report ++ d2).
    split; [| split; [| split; [| split; [| split]]]].
    + cbn [map deliveries]. fold md.
      change (retry_measure 0) with (Z.to_nat MAX_RETRIES) in *.
      repeat split; assumption.
    + cbn [export_loop]. unfold bind at 1.
      rewrite (loop_body_run py_float requests_post total i row c w _ _ Hsend).
      fold md report. rewrite advance_advance, Hloop, advance_advance.
      unfold requests_of. cbn [map fst]. unfold list_sum. cbn [fold_right].
      f_equal. f_equal; [lia | now rewrite <- app_assoc].
    + rewrite Hs. unfold tally, delivered. cbn [success_count filter snd].
      destruct (accepted answer); cbn [List.length]; lia.
    + rewrite Hf. unfold tally, undelivered. cbn [fail_count filter snd].
      destruct (accepted answer); cbn [negb List.length]; lia.
    + rewrite Hb. unfold tally. cbn [batch_count List.length turns_due].
      destruct (batch_due total i); lia.
    + destruct Hlog as (Hp & Hsl & Hsent & Hfail & Herr & Hall & Hatt).
      unfold loop_log, attempts in *.
      rewrite !posted_app, !slept_app, !count_app.
      rewrite Hrp, Hrs, Hrsent, Hrfail, Hrerr, Hrall, Hratt.
      rewrite Hp, Hsl, Hsent, Hfail, Herr, Hall, Hatt.
      subst d1.
      rewrite !posted_app, !slept_app, !count_app.
      rewrite slept_retry_rounds, posted_retry_rounds.
      rewrite !count_retry_rounds by reflexivity.
      cbn [posted slept]. rewrite posted_closing, slept_closing.
      change (Post WEBHOOK_URL md REQUEST_TIMEOUT :: closing md answer)
        with ([Post WEBHOOK_URL md REQUEST_TIMEOUT] ++ closing md answer).
      rewrite !count_app, failure_lines_closing.
      rewrite !count_closing by reflexivity.
      unfold retries_of, requests_of, delivered, undelivered, list_sum.
      cbn [map fold_right fst snd filter repeated List.length turns_due].
      fold md.
      split; [| split; [| split; [| split; [| split; [| split]]]]].
      * cbn [app]. f_equal. symmetry. apply (repeat_cons n md).
      * destruct (batch_due total i); lia.
      * destruct (accepted answer); cbn; lia.
      * destruct (accepted answer); cbn; lia.
      * cbn. lia.
      * cbn. lia.
      * fold (attempts (retry_rounds md 0 n)). rewrite attempts_retry_rounds.
        cbn. lia.
Qed.

(** *** The whole run, whatever the webhook answers *)

(** The lines around the loop add nothing to what is read off the log of
    the loop, but for the line that tells all went well. *)
Lemma run_frame_lines total c delta :
  let run := header total ++ delta ++ final_summary total c ++
             congratulation total c in
  posted run = posted delta /\
  slept run = slept delta /\
  count is_sent_line run = count is_sent_line delta /\
  count is_failure_line run = count is_failure_line delta /\
  count is_error_line run = count is_error_line delta /\
  count is_all_exported run =
    Nat.add (count is_all_exported delta)
            (if (fail_count c =? 0) && (total >? 0) then 1%nat else 0%nat).
Proof.
  cbv zeta; intros. rewrite !posted_app, !slept_app, !count_app.
  unfold congratulation.
  destruct ((fail_count c =? 0) && (total >? 0)); cbn;
    rewrite ?app_nil_r; repeat split; lia.
Qed.

Lemma export_memories_trace counted fetched w :
  exists outcomes c delta,
    deliveries requests_post (sent w)
      (map (memory_data_of py_float) (select_memories fetched)) outcomes /\
    export_memories py_float requests_post
      (Connected (Sees counted) (Sees fetched)) w =
      (tt, advance w (requests_of outcomes)
             (header (select_count counted) ++ delta ++
              final_summary (select_count counted) c ++
              congratulation (select_count counted) c)) /\
    success_count c = Z.of_nat (delivered outcomes) /\
    fail_count c = Z.of_nat (undelivered outcomes) /\
    batch_count c =
      Z.of_nat (turns_due (select_count counted) 1
                  (List.length (select_memories fetched))) /\
    loop_log (select_count counted) 1 (select_memories fetched) outcomes delta.
Proof.
  destruct (export_loop_trace (select_memories fetched) (select_count counted) 1
              no_counts (advance w 0 (header (select_count counted))))
    as (outs & c & delta & Hdel & Hloop & Hs & Hf & Hb & Hlog).
  cbn [sent advance] in Hdel. rewrite Nat.add_0_r in Hdel.
  cbn [no_counts success_count fail_count batch_count] in Hs, Hf, Hb.
  exists outs, c, delta.
  split; [exact Hdel |
    split; [| split; [lia | split; [lia | split; [lia | exact Hlog]]]]].
  rewrite (export_memories_run py_float requests_post _ _ _ _ _ Hloop).
  rewrite !advance_advance. cbn [Nat.add]. now rewrite Nat.add_0_r.
Qed.

(** The outcomes of a series of deliveries: one per body, none with more
    than MAX_RETRIES retries. *)
Lemma deliveries_shape bodies : forall start outcomes,
  deliveries requests_post start bodies outcomes ->
  List.length outcomes = List.length bodies /\
  Forall (fun o : Outcome => (fst o <= Z.to_nat MAX_RETRIES)%nat) outcomes.
Proof.
  induction bodies as [| md bodies IH]; intros start [| [n answer] outcomes] Hdel;
    cbn [deliveries] in Hdel; try contradiction.
  - split; [reflexivity | constructor].
  - destruct Hdel as (Hn & _ & _ & _ & Hrest).
    destruct (IH _ _ Hrest) as [Hlen Hall].
    split; [cbn [List.length]; congruence | constructor; assumption].
Qed.

Lemma retries_bounded (outcomes : list Outcome) :
  Forall (fun o : Outcome => (fst o <= Z.to_nat MAX_RETRIES)%nat) outcomes ->
  (retries_of outcomes <= 3 * List.length outcomes)%nat /\
  requests_of outcomes = (retries_of outcomes + List.length outcomes)%nat.
Proof.
  unfold retries_of, requests_of, list_sum.
  induction 1 as [| [n answer] outcomes Hn _ [IH1 IH2]]; [split; reflexivity |].
  cbn [map fold_right fst List.length] in *.
  change (Z.to_nat MAX_RETRIES) with 3%nat in Hn. lia.
Qed.

Lemma delivered_or_not (outcomes : list Outcome) :
  (delivered outcomes + undelivered outcomes)%nat = List.length outcomes.
Proof.
  unfold delivered, undelivered.
  induction outcomes as [| [n answer] outcomes IH]; [reflexivity |].
  cbn [filter snd]. destruct (accepted answer); cbn [negb List.length]; lia.
Qed.

Lemma after_last_post_closing before md answer :
  after_last_post (before ++ Post WEBHOOK_URL md REQUEST_TIMEOUT ::
                   closing md answer) = closing md answer.
Proof.
  assert (Hnone : existsb is_post (closing md answer) = false).
  { destruct answer as [code | e]; cbn [closing]; [| reflexivity].
    destruct (code =? 200), (code =? 429); reflexivity. }
  induction before as [| e before IH].
  - cbn [app after_last_post is_post]. now rewrite Hnone.
  - cbn [app after_last_post]. rewrite existsb_app. cbn [existsb is_post].
    rewrite orb_true_r. exact IH.
Qed.

Lemma posts_of_retry_rounds md k : forall rc,
  filter is_post (retry_rounds md rc k) =
  repeat (Post WEBHOOK_URL md REQUEST_TIMEOUT) k.
Proof.
  induction k as [| k IH]; intros rc; [reflexivity |].
  cbn [retry_rounds]. rewrite filter_app, IH. reflexivity.
Qed.

Lemma posts_of_closing md answer : filter is_post (closing md answer) = [].
Proof.
  destruct answer as [code | e]; cbn [closing]; [| reflexivity].
  destruct (code =? 200), (code =? 429); reflexivity.
Qed.

(** X1. What [send_memory], called with retry_count = 0, returns is decided
    by the first answer that is not a retried 429: it makes n <= 3 retries,
    each after a 429, and returns on the next answer, True exactly when that
    answer is a 200; that answer is a 429 only after the third retry.  The
    log it leaves is the n rounds, the last request and the line for the
    last answer. *)
Theorem send_memory_returns_on_first_settled_answer md w :
  exists n,
    (n <= Z.to_nat MAX_RETRIES)%nat /\
    (forall k, (k < n)%nat ->
               requests_post (sent w + k)%nat md = Response 429) /\
    (requests_post (sent w + n)%nat md = Response 429 ->
     n = Z.to_nat MAX_RETRIES) /\
    send_memory requests_post md 0 w =
      (accepted (requests_post (sent w + n)%nat md),
       advance w (S n)
         (retry_rounds md 0 n ++
          Post WEBHOOK_URL md REQUEST_TIMEOUT ::
          closing md (requests_post (sent w + n)%nat md))) /\
    (fst (send_memory requests_post md 0 w) = true <->
     requests_post (sent w + n)%nat md = Response 200).
Proof.
  destruct (send_memory_trace md 0 w) as (n & Hn & Hbefore & Hlast & Hrun).
  exists n. split; [exact Hn | split; [exact Hbefore | split; [| split]]].
  - intros H429. apply Hlast. now rewrite H429.
  - exact Hrun.
  - rewrite Hrun. cbn [fst].
    destruct (requests_post (sent w + n)%nat md) as [code | e]; cbn [accepted].
    + rewrite Z.eqb_eq. split; [now intros -> | now intros [= ->]].
    + split; discriminate.
Qed.

(** X2. A call with retry_count = 0 sleeps only before a retry:
    DELAY_ON_ERROR seconds for each of its n retries, so 360 seconds at
    most, and never after its last request. *)
Theorem send_memory_sleeps_before_retries_only md w :
  exists b n delta,
    send_memory requests_post md 0 w = (b, advance w (S n) delta) /\
    attempts delta = S n /\
    sleeps delta = n /\
    cooldowns delta = n /\
    slept delta = DELAY_ON_ERROR * Z.of_nat n /\
    0 <= slept delta <= 360 /\
    sleeps (after_last_post delta) = 0%nat.
Proof.
  destruct (send_memory_trace md 0 w) as (n & Hn & _ & _ & Hrun).
  eexists _, n, _. split; [exact Hrun |].
  change (retry_measure 0) with 3%nat in Hn.
  set (answer := requests_post (sent w + n)%nat md).
  change (Post WEBHOOK_URL md REQUEST_TIMEOUT :: closing md answer)
    with ([Post WEBHOOK_URL md REQUEST_TIMEOUT] ++ closing md answer).
  rewrite slept_app, slept_app, slept_retry_rounds, slept_closing.
  unfold attempts, sleeps, cooldowns. rewrite !count_app.
  fold (attempts (retry_rounds md 0 n)) (sleeps (retry_rounds md 0 n))
       (cooldowns (retry_rounds md 0 n)).
  rewrite attempts_retry_rounds.
  destruct (sleeps_retry_rounds md n 0) as [-> ->].
  rewrite !count_closing by reflexivity.
  change ([Post WEBHOOK_URL md REQUEST_TIMEOUT] ++ closing md answer)
    with (Post WEBHOOK_URL md REQUEST_TIMEOUT :: closing md answer).
  rewrite after_last_post_closing, count_closing by reflexivity.
  cbn [slept]. unfold DELAY_ON_ERROR, count. cbn [filter is_post is_sleep is_cooldown List.length].
  repeat split; lia.
Qed.

(** X3. Every request of a call is the same one: the body it was given,
    posted to WEBHOOK_URL with a timeout of 15 seconds. *)
Theorem send_memory_repeats_one_request md rc w :
  exists b n delta,
    send_memory requests_post md rc w = (b, advance w n delta) /\
    filter is_post delta = repeat (Post WEBHOOK_URL md REQUEST_TIMEOUT) n /\
    posted delta = repeat md n.
Proof.
  destruct (send_memory_trace md rc w) as (n & _ & _ & _ & Hrun).
  eexists _, (S n), _. split; [exact Hrun | split].
  - rewrite filter_app, posts_of_retry_rounds. cbn [filter is_post].
    rewrite posts_of_closing. symmetry. apply (repeat_cons n).
  - rewrite posted_app, posted_retry_rounds. cbn [posted].
    rewrite posted_closing. symmetry. apply (repeat_cons n).
Qed.

(** X4. Whatever retry_count it is called with, [send_memory] makes one
    request and at most max 0 (3 - retry_count) retries, all of them on a
    429: none at all from retry_count = 3 on, and exactly that many when
    the webhook answers 429 throughout. *)
Theorem send_memory_retry_budget md rc w :
  exists b n delta,
    send_memory requests_post md rc w = (b, advance w (S n) delta) /\
    attempts delta = S n /\
    Z.of_nat n <= Z.max 0 (MAX_RETRIES - rc) /\
    (forall k, (k < n)%nat ->
               requests_post (sent w + k)%nat md = Response 429) /\
    (requests_post (sent w + n)%nat md = Response 429 ->
     Z.of_nat n = Z.max 0 (MAX_RETRIES - rc) /\ b = false).
Proof.
  destruct (send_memory_trace md rc w) as (n & Hn & Hbefore & Hlast & Hrun).
  eexists _, n, _. split; [exact Hrun |].
  unfold retry_measure in *.
  split; [| split; [lia | split; [exact Hbefore |]]].
  - unfold attempts. rewrite count_app.
    fold (attempts (retry_rounds md rc n)). rewrite attempts_retry_rounds.
    change (Post WEBHOOK_URL md REQUEST_TIMEOUT ::
            closing md (requests_post (sent w + n)%nat md))
      with ([Post WEBHOOK_URL md REQUEST_TIMEOUT] ++
            closing md (requests_post (sent w + n)%nat md)).
    rewrite count_app, count_closing by reflexivity. cbn. lia.
  - intros H429. rewrite H429 in *. split; [| reflexivity].
    specialize (Hlast eq_refl). lia.
Qed.

(** *** The query *)

Lemma insert_entry_perm (e : Entry Numeric) sorted :
  Permutation (insert_entry e sorted) (e :: sorted).
Proof.
  induction sorted as [| f rest IH]; [reflexivity |].
  cbn [insert_entry]. destruct (sorts_before e f); [reflexivity |].
  rewrite IH. apply perm_swap.
Qed.

Lemma order_by_perm (entries : list (Entry Numeric)) :
  Permutation (order_by entries) entries.
Proof.
  induction entries as [| e rest IH]; [reflexivity |].
  cbn [order_by fold_right]. fold (order_by rest).
  rewrite insert_entry_perm. now apply perm_skip.
Qed.

(** Where a fetched row comes from. *)
Lemma select_memories_origin (table : list (Entry Numeric)) row :
  In row (select_memories table) ->
  exists e, In e table /\ is_active e = true /\ row = entry_row e.
Proof.
  unfold select_memories. intros Hin.
  apply in_map_iff in Hin. destruct Hin as (e & Hrow & Hin).
  apply (Permutation_in _ (order_by_perm _)) in Hin.
  apply filter_In in Hin. destruct Hin as [Hin Hactive].
  exists e. repeat split; [assumption | assumption | now symmetry].
Qed.

(** *** Deliveries *)

Lemma repeated_in bodies : forall outcomes p,
  In p (repeated bodies outcomes) -> In p bodies.
Proof.
  induction bodies as [| md bodies IH]; intros [| [n answer] outcomes] p Hin;
    cbn [repeated] in Hin; try contradiction.
  apply in_app_or in Hin. destruct Hin as [Hin | Hin].
  - left. symmetry. exact (repeat_spec _ _ _ Hin).
  - right. exact (IH _ _ Hin).
Qed.

(** With a webhook that always gives the same answer, every delivery goes
    the same way. *)
Lemma deliveries_constant answer bodies :
  (forall k p, requests_post k p = answer) ->
  forall start outcomes,
    deliveries requests_post start bodies outcomes ->
    outcomes =
    repeat ((if rate_limited answer then Z.to_nat MAX_RETRIES else 0%nat), answer)
           (List.length bodies).
Proof.
  intros Hnet.
  induction bodies as [| md bodies IH]; intros start [| [n a] outcomes] Hdel;
    cbn [deliveries] in Hdel; try contradiction; [reflexivity |].
  destruct Hdel as (_ & Hbefore & Ha & Hlast & Hrest).
  rewrite Hnet in Ha. subst a.
  cbn [List.length repeat]. f_equal; [| exact (IH _ _ Hrest)].
  f_equal. destruct (rate_limited answer) eqn:Hlimited.
  - now apply Hlast.
  - destruct n as [| n]; [reflexivity |].
    specialize (Hbefore 0%nat ltac:(lia)). rewrite Hnet in Hbefore.
    rewrite Hbefore in Hlimited. discriminate.
Qed.

Lemma outcomes_repeat (o : Outcome) len :
  retries_of (repeat o len) = (fst o * len)%nat /\
  requests_of (repeat o len) = (S (fst o) * len)%nat /\
  delivered (repeat o len) = (if accepted (snd o) then len else 0%nat) /\
  undelivered (repeat o len) = (if accepted (snd o) then 0%nat else len).
Proof.
  unfold retries_of, requests_of, delivered, undelivered, list_sum.
  induction len as [| len (IH1 & IH2 & IH3 & IH4)].
  - cbn. destruct (accepted (snd o)); repeat split; lia.
  - cbn [repeat map fold_right filter].
    rewrite IH1, IH2. destruct (accepted (snd o));
      cbn [negb List.length]; rewrite ?IH3, ?IH4; repeat split; lia.
Qed.

Lemma turns_due_all len : turns_due (Z.of_nat len) 1 len = (len - 1)%nat.
Proof.
  rewrite <- (Nat.min_id len) at 2. rewrite turns_due_prefix. lia.
Qed.

Lemma turns_due_from_one total k :
  Z.of_nat (turns_due total 1 k) = Z.max 0 (Z.min (Z.of_nat k) (total - 1)).
Proof.
  rewrite turns_due_closed. lia.
Qed.

(** *** Further properties of the run *)

(** X5. The bodies posted during a run are those of the fetched rows, in
    the order of the rows, each one between one and four times in a row;
    nothing else is ever posted. *)
Theorem export_posts_rows_in_order counted fetched w :
  exists outcomes run,
    export_memories py_float requests_post
      (Connected (Sees counted) (Sees fetched)) w =
      (tt, advance w (attempts run) run) /\
    List.length outcomes = List.length (select_memories fetched) /\
    Forall (fun o : Outcome => (fst o <= Z.to_nat MAX_RETRIES)%nat) outcomes /\
    posted run =
      repeated (map (memory_data_of py_float) (select_memories fetched)) outcomes.
Proof.
  destruct (export_memories_trace counted fetched w)
    as (outs & c & delta & Hdel & Hrun & _ & _ & _ & Hp & _ & _ & _ & _ & _ & Hatt).
  destruct (deliveries_shape _ _ _ Hdel) as [Hlen Hall].
  rewrite length_map in Hlen.
  pose proof (run_frame_lines (select_count counted) c delta) as (Hfp & _).
  exists outs, (header (select_count counted) ++ delta ++
                final_summary (select_count counted) c ++
                congratulation (select_count counted) c).
  split; [| split; [exact Hlen | split; [exact Hall |]]].
  - unfold attempts in *. rewrite run_frame by reflexivity.
    rewrite Hatt. exact Hrun.
  - rewrite Hfp. exact Hp.
Qed.

(** X6. A run never posts an entry that is not ACTIVE: every body posted
    is built from an entry the SELECT statement found with the status
    'ACTIVE', and carries the status 'active'. *)
Theorem export_posts_active_entries_only counted fetched w :
  exists run,
    export_memories py_float requests_post
      (Connected (Sees counted) (Sees fetched)) w =
      (tt, advance w (attempts run) run) /\
    Forall (fun p =>
              p_status p = "active" /\
              exists e, In e fetched /\
                        status (entry_row e) = Some "ACTIVE" /\
                        p = memory_data_of py_float (entry_row e))
           (posted run).
Proof.
  destruct (export_memories_trace counted fetched w)
    as (outs & c & delta & Hdel & Hrun & _ & _ & _ & Hp & _ & _ & _ & _ & _ & Hatt).
  pose proof (run_frame_lines (select_count counted) c delta) as (Hfp & _).
  exists (header (select_count counted) ++ delta ++
          final_summary (select_count counted) c ++
          congratulation (select_count counted) c).
  split.
  - unfold attempts in *. rewrite run_frame by reflexivity.
    rewrite Hatt. exact Hrun.
  - rewrite Hfp, Hp. apply Forall_forall. intros p Hin.
    apply repeated_in, in_map_iff in Hin. destruct Hin as (row & <- & Hin).
    apply select_memories_origin in Hin.
    destruct Hin as (e & Hin & Hactive & ->).
    unfold is_active in Hactive.
    destruct (status (entry_row e)) as [s |] eqn:Hstatus; [| discriminate].
    apply String.eqb_eq in Hactive. subst s.
    split.
    + unfold memory_data_of. cbn [p_status]. rewrite Hstatus. reflexivity.
    + exists e. repeat split; assumption.
Qed.

(** X8. The summary tells what the log shows: the number printed as
    successful is the number of progress lines, the number printed as failed
    is the number of failure lines (one per row that was not delivered), and
    the two add up to the number of rows fetched. *)
Theorem summary_counts_the_lines counted fetched w :
  exists c n delta,
    let total := select_count counted in
    let run := header total ++ delta ++ final_summary total c ++
               congratulation total c in
    export_memories py_float requests_post
      (Connected (Sees counted) (Sees fetched)) w =
      (tt, advance w n run) /\
    success_count c = Z.of_nat (count is_sent_line run) /\
    fail_count c = Z.of_nat (count is_failure_line run) /\
    (count is_sent_line run + count is_failure_line run)%nat =
      List.length (select_memories fetched).
Proof.
  destruct (export_memories_trace counted fetched w)
    as (outs & c & delta & Hdel & Hrun & Hs & Hf & _ & _ & _ & Hsent & Hfail & _).
  destruct (deliveries_shape _ _ _ Hdel) as [Hlen _].
  rewrite length_map in Hlen.
  pose proof (run_frame_lines (select_count counted) c delta)
    as (_ & _ & Hfs & Hff & _).
  exists c, (requests_of outs), delta. cbv zeta.
  rewrite Hfs, Hff, Hsent, Hfail.
  split; [exact Hrun | split; [exact Hs | split; [exact Hf |]]].
  rewrite delivered_or_not. exact Hlen.
Qed.

(** X9. What a run over n fetched rows costs, the COUNT statement having
    counted [total]: between n and 4 n requests; and, the delay between
    batches being taken p = max 0 (min n (total - 1)) times, between 5 p and
    5 p + 360 n seconds of sleep, so never more than 365 n. *)
Theorem export_budget counted fetched w :
  exists run,
    let n := List.length (select_memories fetched) in
    let p := Z.max 0 (Z.min (Z.of_nat n) (select_count counted - 1)) in
    export_memories py_float requests_post
      (Connected (Sees counted) (Sees fetched)) w =
      (tt, advance w (attempts run) run) /\
    (n <= attempts run <= 4 * n)%nat /\
    DELAY_BETWEEN_BATCHES * p <= slept run /\
    slept run <= DELAY_BETWEEN_BATCHES * p +
                 MAX_RETRIES * DELAY_ON_ERROR * Z.of_nat n /\
    slept run <= (DELAY_BETWEEN_BATCHES + MAX_RETRIES * DELAY_ON_ERROR) *
                 Z.of_nat n.
Proof.
  destruct (export_memories_trace counted fetched w)
    as (outs & c & delta & Hdel & Hrun & _ & _ & _ & _ & Hsl & _ & _ & _ & _ & Hatt).
  destruct (deliveries_shape _ _ _ Hdel) as [Hlen Hall].
  rewrite length_map in Hlen.
  destruct (retries_bounded _ Hall) as [Hretries Hrequests].
  pose proof (run_frame_lines (select_count counted) c delta) as (_ & Hfs & _).
  exists (header (select_count counted) ++ delta ++
          final_summary (select_count counted) c ++
          congratulation (select_count counted) c).
  cbv zeta. rewrite Hfs, Hsl.
  unfold attempts in *. rewrite run_frame by reflexivity. rewrite Hatt.
  split; [exact Hrun |].
  rewrite turns_due_from_one.
  unfold DELAY_BETWEEN_BATCHES, DELAY_ON_ERROR, MAX_RETRIES. lia.
Qed.

Lemma repeated_constant (o : Outcome) bodies :
  repeated bodies (repeat o (List.length bodies)) =
  flat_map (fun md => repeat md (S (fst o))) bodies.
Proof.
  destruct o as [n answer].
  induction bodies as [| md bodies IH]; [reflexivity |].
  cbn [List.length repeat repeated flat_map fst] in *. now rewrite IH.
Qed.

(** X10. When [requests.post] returns a 200 every time, every fetched row
    is sent once, in order, and counted as a success; the run sleeps only
    the delay between batches, taken after row i when i < total; and the
    lines telling that all went well are printed exactly when the COUNT
    statement counted at least one entry. *)
Theorem export_all_accepted counted fetched w :
  (forall k p, requests_post k p = Response 200) ->
  exists c delta,
    let total := select_count counted in
    let memories := select_memories fetched in
    let run := header total ++ delta ++ final_summary total c ++
               congratulation total c in
    export_memories py_float requests_post
      (Connected (Sees counted) (Sees fetched)) w =
      (tt, advance w (List.length memories) run) /\
    posted run = map (memory_data_of py_float) memories /\
    success_count c = Z.of_nat (List.length memories) /\
    fail_count c = 0 /\
    count is_failure_line run = 0%nat /\
    slept run =
      DELAY_BETWEEN_BATCHES *
      Z.max 0 (Z.min (Z.of_nat (List.length memories)) (total - 1)) /\
    congratulation total c =
      if total >? 0 then [Print AllExportedLine; Print ViewThemLine] else [].
Proof.
  intros Hnet.
  destruct (export_memories_trace counted fetched w)
    as (outs & c & delta & Hdel & Hrun & Hs & Hf & _ & Hp & Hsl & _ & Hfail & _).
  pose proof (deliveries_constant _ _ Hnet _ _ Hdel) as Houts.
  cbn [rate_limited Z.eqb Pos.eqb] in Houts. rewrite length_map in Houts.
  pose proof (outcomes_repeat (0%nat, Response 200)
                (List.length (select_memories fetched)))
    as (Hretries & Hrequests & Hdelivered & Hundelivered).
  subst outs. unfold Outcome in *.
  cbn [fst snd accepted Z.eqb Pos.eqb] in Hretries, Hrequests, Hdelivered,
    Hundelivered.
  rewrite Hrequests in Hrun. rewrite Hdelivered in Hs.
  rewrite Hundelivered in Hf, Hfail. rewrite Hretries in Hsl.
  pose proof (run_frame_lines (select_count counted) c delta)
    as (Hfp & Hfs & _ & Hff & _).
  exists c, delta. cbv zeta. rewrite Hfp, Hfs, Hff, Hp, Hsl, Hfail.
  assert (Hbodies : repeated (map (memory_data_of py_float)
                                  (select_memories fetched))
                      (repeat (0%nat, Response 200)
                              (List.length (select_memories fetched))) =
                    map (memory_data_of py_float) (select_memories fetched)).
  { rewrite <- (length_map (memory_data_of py_float)), repeated_constant.
    cbn [fst repeat]. generalize (map (memory_data_of py_float)
                                      (select_memories fetched)).
    induction l as [| md l IH]; [reflexivity |]. cbn [flat_map app].
    now rewrite IH. }
  rewrite Hbodies.
  split; [rewrite Nat.mul_1_l in Hrun; exact Hrun |].
  split; [reflexivity |].
  split; [exact Hs |].
  split; [exact Hf | split; [reflexivity | split]].
  - rewrite turns_due_from_one. lia.
  - unfold congratulation. rewrite Hf. reflexivity.
Qed.

(** X11. When [requests.post] returns a 429 every time, every fetched row
    gets its own four requests (the count of retries starts again at each
    row) and is counted as a failure, and the run sleeps 360 seconds per row
    on top of the delays between batches.  The lines telling that all went
    well are then printed only if no row was fetched although the COUNT
    statement counted some. *)
Theorem export_all_rate_limited counted fetched w :
  (forall k p, requests_post k p = Response 429) ->
  exists c delta,
    let total := select_count counted in
    let memories := select_memories fetched in
    let run := header total ++ delta ++ final_summary total c ++
               congratulation total c in
    export_memories py_float requests_post
      (Connected (Sees counted) (Sees fetched)) w =
      (tt, advance w (4 * List.length memories) run) /\
    posted run =
      flat_map (fun row => repeat (memory_data_of py_float row) 4) memories /\
    success_count c = 0 /\
    fail_count c = Z.of_nat (List.length memories) /\
    count is_failure_line run = List.length memories /\
    slept run =
      MAX_RETRIES * DELAY_ON_ERROR * Z.of_nat (List.length memories) +
      DELAY_BETWEEN_BATCHES *
      Z.max 0 (Z.min (Z.of_nat (List.length memories)) (total - 1)) /\
    congratulation total c =
      match memories with
      | [] => if total >? 0
              then [Print AllExportedLine; Print ViewThemLine] else []
      | _ :: _ => []
      end.
Proof.
  intros Hnet.
  destruct (export_memories_trace counted fetched w)
    as (outs & c & delta & Hdel & Hrun & Hs & Hf & _ & Hp & Hsl & _ & Hfail & _).
  pose proof (deliveries_constant _ _ Hnet _ _ Hdel) as Houts.
  cbn [rate_limited Z.eqb Pos.eqb] in Houts. rewrite length_map in Houts.
  change (Z.to_nat MAX_RETRIES) with 3%nat in Houts.
  pose proof (outcomes_repeat (3%nat, Response 429)
                (List.length (select_memories fetched)))
    as (Hretries & Hrequests & Hdelivered & Hundelivered).
  subst outs. unfold Outcome in *.
  cbn [fst snd accepted Z.eqb Pos.eqb] in Hretries, Hrequests, Hdelivered,
    Hundelivered.
  rewrite Hrequests in Hrun. rewrite Hdelivered in Hs.
  rewrite Hundelivered in Hf, Hfail. rewrite Hretries in Hsl.
  pose proof (run_frame_lines (select_count counted) c delta)
    as (Hfp & Hfs & _ & Hff & _).
  exists c, delta. cbv zeta. rewrite Hfp, Hfs, Hff, Hp, Hsl, Hfail.
  split; [exact Hrun |].
  split.
  { rewrite <- (length_map (memory_data_of py_float)), repeated_constant.
    cbn [fst]. now rewrite flat_map_concat_map, map_map, <- flat_map_concat_map. }
  split; [exact Hs |].
  split; [exact Hf |].
  split; [reflexivity | split].
  - rewrite turns_due_from_one.
    unfold MAX_RETRIES, DELAY_ON_ERROR. lia.
  - unfold congratulation. rewrite Hf.
    destruct (select_memories fetched); reflexivity.
Qed.


(** X13. The line telling that all memories were exported is printed, once,
    exactly when the COUNT statement counted at least one entry and no
    failure line was printed: the test is on the count, not on the rows
    fetched. *)
Theorem all_exported_iff_counted_and_no_failure counted fetched w :
  exists n run,
    export_memories py_float requests_post
      (Connected (Sees counted) (Sees fetched)) w =
      (tt, advance w n run) /\
    count is_all_exported run =
      if ((select_count counted >? 0) &&
          Nat.eqb (count is_failure_line run) 0)%bool
      then 1%nat else 0%nat.
Proof.
  destruct (export_memories_trace counted fetched w)
    as (outs & c & delta & _ & Hrun & _ & Hf & _ & _ & _ & _ & Hfail & _ & Hall & _).
  pose proof (run_frame_lines (select_count counted) c delta)
    as (_ & _ & _ & Hff & _ & Hfa).
  eexists _, _. split; [exact Hrun |].
  rewrite Hfa, Hff, Hall, Hfail, Hf.
  destruct (select_count counted >? 0), (undelivered outs); reflexivity.
Qed.


(** *** Where the delay between batches falls *)

Lemma after_last_post_tail before u p t tail :
  existsb is_post tail = false ->
  after_last_post (before ++ Post u p t :: tail) = tail.
Proof.
  intros Hnone. induction before as [| e before IH].
  - cbn [app after_last_post is_post]. now rewrite Hnone.
  - cbn [app after_last_post]. rewrite existsb_app. cbn [existsb is_post].
    rewrite orb_true_r. exact IH.
Qed.

Lemma batch_due_one total i : batch_due total i = (i <? total).
Proof.
  unfold batch_due, BATCH_SIZE. now rewrite Z.mod_1_r.
Qed.

(** The end of the log once the row at position [k] (from 0) is handled:
    after its last request come the line for the answer, the progress line,
    and the notice and the delay when its index, k + 1, is below [total]. *)
Lemma turn_end total (memories : list (Row Numeric)) k row w0 :
  nth_error memories k = Some row ->
  exists ck nk dk,
    export_loop py_float requests_post total 1 (firstn (S k) memories)
      no_counts w0 = (ck, advance w0 nk dk) /\
    sleeps (after_last_post dk) =
      (if Z.of_nat (S k) <? total then 1%nat else 0%nat) /\
    pacings (after_last_post dk) =
      (if Z.of_nat (S k) <? total then 1%nat else 0%nat) /\
    (Z.of_nat (S k) < total ->
     last dk (Print RuleLine) = Sleep DELAY_BETWEEN_BATCHES).
Proof.
  intros Hrow.
  assert (Hk : List.length (firstn k memories) = k).
  { rewrite length_firstn. apply Nat.min_l, Nat.lt_le_incl.
    apply nth_error_Some. congruence. }
  destruct (export_loop_effect py_float requests_post (firstn k memories)
              total 1 no_counts w0) as (c1 & n1 & d1 & Hpre & _).
  set (md := memory_data_of py_float row).
  destruct (send_memory_trace md 0 (advance w0 n1 d1))
    as (n & _ & _ & _ & Hsend).
  set (answer := requests_post (sent (advance w0 n1 d1) + n)%nat md) in *.
  set (i := 1 + Z.of_nat k).
  set (report := turn_report total i md c1 (accepted answer)).
  exists (tally (accepted answer) (batch_due total i) c1), (n1 + (S n + 0))%nat,
    ((d1 ++ retry_rounds md 0 n) ++
     Post WEBHOOK_URL md REQUEST_TIMEOUT :: closing md answer ++ report).
  assert (Hnone : existsb is_post (closing md answer ++ report) = false).
  { rewrite existsb_app. subst report. unfold turn_report.
    destruct answer as [code | e]; cbn [closing accepted];
      [destruct (code =? 200), (code =? 429) |];
      destruct (batch_due total i); reflexivity. }
  assert (Hi : Z.of_nat (S k) = i) by (subst i; lia).
  rewrite (after_last_post_tail _ _ _ _ _ Hnone), Hi.
  unfold sleeps, pacings. rewrite !count_app, !count_closing by reflexivity.
  subst report. unfold turn_report. rewrite batch_due_one.
  split; [| split; [| split]].
  - rewrite (firstn_snoc _ _ _ Hrow), export_loop_app, Hpre, Hk.
    cbn [export_loop]. unfold bind at 1. fold i.
    rewrite (loop_body_run py_float requests_post total i row c1 _ _ _ Hsend).
    fold md. unfold ret. rewrite !advance_advance.
    unfold turn_report. rewrite batch_due_one.
    f_equal. f_equal. now rewrite <- !app_assoc.
  - destruct (accepted answer), (i <? total); reflexivity.
  - destruct (accepted answer), (i <? total); reflexivity.
  - intros Hlt. apply Z.ltb_lt in Hlt. rewrite Hlt.
    rewrite !app_comm_cons, !app_assoc.
    change [Print (BatchCompleteLine (batch_count c1 + 1) DELAY_BETWEEN_BATCHES);
            Sleep DELAY_BETWEEN_BATCHES]
      with ([Print (BatchCompleteLine (batch_count c1 + 1) DELAY_BETWEEN_BATCHES)]
            ++ [Sleep DELAY_BETWEEN_BATCHES]).
    rewrite !app_assoc. apply last_last.
Qed.

(** X15. The delay between batches follows the count, not the rows: the
    COUNT statement having counted [total], it is taken after the row of
    index i exactly when i < total, as the last thing done for that row; so
    a run over n fetched rows takes it max 0 (min n (total - 1)) times, which
    is where batch_count ends, and the summary gives one more as the number
    of batches unless total is 0. *)
Theorem pacing_follows_count counted fetched w :
  let total := select_count counted in
  let memories := select_memories fetched in
  let w0 := advance w 0 (header total) in
  let paced := Z.max 0 (Z.min (Z.of_nat (List.length memories)) (total - 1)) in
  (exists c n delta,
      let run := header total ++ delta ++ final_summary total c ++
                 congratulation total c in
      export_memories py_float requests_post
        (Connected (Sees counted) (Sees fetched)) w = (tt, advance w n run) /\
      Z.of_nat (pacings run) = paced /\
      batch_count c = paced /\
      last (final_summary total c) (Print RuleLine) =
        Print (TotalBatchesLine (if total >? 0 then paced + 1 else 0))) /\
  (forall k row,
      nth_error memories k = Some row ->
      exists ck nk dk,
        export_loop py_float requests_post total 1 (firstn (S k) memories)
          no_counts w0 = (ck, advance w0 nk dk) /\
        sleeps (after_last_post dk) =
          (if Z.of_nat (S k) <? total then 1%nat else 0%nat) /\
        pacings (after_last_post dk) =
          (if Z.of_nat (S k) <? total then 1%nat else 0%nat) /\
        (Z.of_nat (S k) < total ->
         last dk (Print RuleLine) = Sleep DELAY_BETWEEN_BATCHES)).
Proof.
  cbv zeta. split.
  - destruct (export_memories_effect py_float requests_post counted fetched w)
      as (c & n & delta & _ & Hrun & _ & _ & _ & Hb & Hpc & _).
    cbn [no_counts batch_count] in Hb.
    exists c, n, delta. split; [exact Hrun |].
    unfold pacings in *. rewrite run_frame by reflexivity.
    cbn [final_summary last].
    rewrite Hpc, !Hb, Z.add_0_l, turns_due_from_one.
    repeat split.
  - intros k row Hrow. exact (turn_end _ _ _ _ _ Hrow).
Qed.

(** X16. When the COUNT statement counted as many entries as the SELECT
    statement fetched rows, n, the delay between batches is taken n - 1
    times: after each row but the last, once its requests are done, and not
    after the last row; batch_count ends at n - 1 and the summary gives n
    batches. *)
Theorem pacing_between_rows_when_counts_agree counted fetched w :
  select_count counted = Z.of_nat (List.length (select_memories fetched)) ->
  let total := select_count counted in
  let memories := select_memories fetched in
  let w0 := advance w 0 (header total) in
  (exists c n delta,
      let run := header total ++ delta ++ final_summary total c ++
                 congratulation total c in
      export_memories py_float requests_post
        (Connected (Sees counted) (Sees fetched)) w = (tt, advance w n run) /\
      pacings run = (List.length memories - 1)%nat /\
      batch_count c = Z.of_nat (List.length memories - 1) /\
      last (final_summary total c) (Print RuleLine) =
        Print (TotalBatchesLine (Z.of_nat (List.length memories)))) /\
  (forall k row,
      nth_error memories k = Some row ->
      exists ck nk dk,
        export_loop py_float requests_post total 1 (firstn (S k) memories)
          no_counts w0 = (ck, advance w0 nk dk) /\
        sleeps (after_last_post dk) =
          (if Nat.ltb (S k) (List.length memories) then 1%nat else 0%nat) /\
        pacings (after_last_post dk) =
          (if Nat.ltb (S k) (List.length memories) then 1%nat else 0%nat) /\
        ((S k < List.length memories)%nat ->
         last dk (Print RuleLine) = Sleep DELAY_BETWEEN_BATCHES)).
Proof.
  intros Hagree. cbv zeta. split.
  - destruct (export_memories_effect py_float requests_post counted fetched w)
      as (c & n & delta & _ & Hrun & _ & _ & _ & Hb & Hpc & _).
    cbn [no_counts batch_count] in Hb.
    exists c, n, delta. split; [exact Hrun |].
    unfold pacings in *. rewrite run_frame by reflexivity.
    cbn [final_summary last].
    rewrite Hpc, !Hb, Z.add_0_l, Hagree, turns_due_all.
    repeat split.
    destruct (select_memories fetched) as [| row rest];
      [reflexivity |].
    cbn [List.length].
    replace (Z.of_nat (S (List.length rest)) >? 0) with true
      by (symmetry; apply Z.gtb_lt; lia).
    do 2 f_equal. lia.
  - intros k row Hrow.
    destruct (turn_end (select_count counted) _ _ _
                (advance w 0 (header (select_count counted))) Hrow)
      as (ck & nk & dk & Hloop & Hsl & Hpc & Hlast).
    exists ck, nk, dk. rewrite Hagree in Hsl, Hpc, Hlast.
    assert (Hsame : (Z.of_nat (S k) <?
                     Z.of_nat (List.length (select_memories fetched))) =
                    Nat.ltb (S k) (List.length (select_memories fetched))).
    { destruct (Nat.ltb_spec (S k) (List.length (select_memories fetched)));
        [apply Z.ltb_lt | apply Z.ltb_ge]; lia. }
    rewrite Hsame in Hsl, Hpc.
    split; [exact Hloop | split; [exact Hsl | split; [exact Hpc |]]].
    intros Hlt. apply Hlast. lia.
Qed.

(** X17. When the SELECT statement fetches no row, nothing is posted and
    the run never sleeps; it prints the two opening lines and the summary
    with 0 successful and 0 failed.  The total of the summary is what the
    COUNT statement counted: when that is 0 the summary gives 0 batches, and
    otherwise it gives 1 batch and is followed by the lines telling that all
    memories were exported. *)
Theorem export_of_no_row counted fetched w :
  select_memories fetched = [] ->
  let total := select_count counted in
  let run :=
    [ Print (TotalToExportLine total);
      Print (StartingLine BATCH_SIZE DELAY_BETWEEN_BATCHES);
      Print RuleLine; Print ExportCompleteLine; Print RuleLine;
      Print (SuccessfulLine 0); Print (FailedLine 0); Print (TotalLine total);
      Print (TotalBatchesLine (if total >? 0 then 1 else 0)) ] ++
    (if total >? 0 then [Print AllExportedLine; Print ViewThemLine] else []) in
  export_memories py_float requests_post
    (Connected (Sees counted) (Sees fetched)) w = (tt, advance w 0 run) /\
  attempts run = 0%nat /\
  sleeps run = 0%nat.
Proof.
  intros Hnone. cbv zeta.
  split; [| destruct (select_count counted >? 0); split; reflexivity].
  rewrite (export_memories_run py_float requests_post counted fetched w
             no_counts (advance w 0 (header (select_count counted)))).
  - rewrite advance_advance. unfold final_summary, congratulation, header.
    cbn [no_counts success_count fail_count batch_count Z.eqb andb Z.add app
         Nat.add].
    destruct (select_count counted >? 0); reflexivity.
  - rewrite Hnone. reflexivity.
Qed.

End Further.

(** * Runs in which the table changes between the two statements *)

(** C6. The COUNT statement counts two active entries and the SELECT
    statement, run after one of them was archived, fetches one row: the
    delay between batches is taken after that row, the last one. *)
Lemma pacing_after_last_row_on_stale_count :
  select_count Sample.table = 2 /\
  select_memories Sample.only_lore = [Sample.lore] /\
  export_memories Sample.as_float Sample.always_accepted
    (Connected (Sees Sample.table) (Sees Sample.only_lore)) start =
  (tt, mkWorld 1
         (header 2 ++
          [ Post WEBHOOK_URL (memory_data_of Sample.as_float Sample.lore)
                 REQUEST_TIMEOUT;
            Print (SentLine 1 2 "likes noodles");
            Print (BatchCompleteLine 1 DELAY_BETWEEN_BATCHES);
            Sleep DELAY_BETWEEN_BATCHES ] ++
          final_summary 2 (mkCounters 1 0 1) ++
          [ Print AllExportedLine; Print ViewThemLine ])).
Proof.
  repeat split.
Qed.

(** C7. The COUNT statement counts two active entries and the SELECT
    statement, run after both were archived, fetches no row: nothing is
    posted, but the summary gives a total of 2 and 1 batch, and the run ends
    telling that all memories were exported. *)
Lemma summary_of_no_row_on_stale_count :
  select_count Sample.table = 2 /\
  select_memories Sample.archive = [] /\
  export_memories Sample.as_float Sample.always_accepted
    (Connected (Sees Sample.table) (Sees Sample.archive)) start =
  (tt, mkWorld 0
         [ Print (TotalToExportLine 2);
           Print (StartingLine BATCH_SIZE DELAY_BETWEEN_BATCHES);
           Print RuleLine; Print ExportCompleteLine; Print RuleLine;
           Print (SuccessfulLine 0); Print (FailedLine 0); Print (TotalLine 2);
           Print (TotalBatchesLine 1);
           Print AllExportedLine; Print ViewThemLine ]).
Proof.
  repeat split.
Qed.

(** C10. The COUNT statement counts three active entries and the SELECT
    statement fetches one row: batch_count ends at 1, the one delay taken,
    not at total - 1 = 2, and the summary gives 2 batches, not 3. *)
Lemma batch_count_on_stale_count :
  select_count Sample.grown = 3 /\
  select_memories Sample.only_lore = [Sample.lore] /\
  export_memories Sample.as_float Sample.always_accepted
    (Connected (Sees Sample.grown) (Sees Sample.only_lore)) start =
  (tt, mkWorld 1
         (header 3 ++
          [ Post WEBHOOK_URL (memory_data_of Sample.as_float Sample.lore)
                 REQUEST_TIMEOUT;
            Print (SentLine 1 3 "likes noodles");
            Print (BatchCompleteLine 1 DELAY_BETWEEN_BATCHES);
            Sleep DELAY_BETWEEN_BATCHES ] ++
          [ Print RuleLine; Print ExportCompleteLine; Print RuleLine;
            Print (SuccessfulLine 1); Print (FailedLine 0); Print (TotalLine 3);
            Print (TotalBatchesLine 2) ] ++
          [ Print AllExportedLine; Print ViewThemLine ])).
Proof.
  repeat split.
Qed.

(** * The further properties on the sample runs *)

(** X10 on the sample table, [requests.post] returning 200 every time. *)
Lemma export_all_accepted_witness :
  (forall k p, Sample.always_accepted k p = Response 200) /\
  exists c delta,
    export_memories Sample.as_float Sample.always_accepted
      (Connected (Sees Sample.table) (Sees Sample.table)) start =
      (tt, advance start 2
             (header 2 ++ delta ++ final_summary 2 c ++
              [Print AllExportedLine; Print ViewThemLine])) /\
    success_count c = 2 /\
    fail_count c = 0.
Proof.
  split; [intros; reflexivity |].
  destruct (export_all_accepted Sample.as_float Sample.always_accepted
              Sample.table Sample.table start (fun _ _ => eq_refl))
    as (c & delta & Hrun & _ & Hs & Hf & _ & _ & Hgood).
  exists c, delta. rewrite Hrun, Hgood. repeat split; assumption.
Defined.

(** X11 on the sample table, [requests.post] returning 429 every time. *)
Lemma export_all_rate_limited_witness :
  (forall k p, Sample.always_limited k p = Response 429) /\
  exists c delta,
    export_memories Sample.as_float Sample.always_limited
      (Connected (Sees Sample.table) (Sees Sample.table)) start =
      (tt, advance start 8 (header 2 ++ delta ++ final_summary 2 c)) /\
    fail_count c = 2 /\
    slept (header 2 ++ delta ++ final_summary 2 c) = 725.
Proof.
  split; [intros; reflexivity |].
  destruct (export_all_rate_limited Sample.as_float Sample.always_limited
              Sample.table Sample.table start (fun _ _ => eq_refl))
    as (c & delta & Hrun & _ & _ & Hf & _ & Hslept & Hnone).
  change (congratulation (select_count Sample.table) c)
    with (congratulation 2 c) in *.
  cbn [select_memories] in Hnone.
  change (congratulation 2 c = []) in Hnone.
  rewrite Hnone, app_nil_r in Hrun, Hslept.
  exists c, delta. repeat split; assumption.
Defined.

(** X16 on the sample table, seen alike by the two statements: the delay
    follows the first of the two rows and not the second. *)
Lemma pacing_between_rows_when_counts_agree_witness :
  select_count Sample.table =
    Z.of_nat (List.length (select_memories Sample.table)) /\
  exists c n delta,
    export_memories Sample.as_float Sample.rejects_first
      (Connected (Sees Sample.table) (Sees Sample.table)) start =
      (tt, advance start n
             (header 2 ++ delta ++ final_summary 2 c ++ congratulation 2 c)) /\
    pacings (header 2 ++ delta ++ final_summary 2 c ++ congratulation 2 c) =
      1%nat /\
    batch_count c = 1.
Proof.
  split; [reflexivity |].
  destruct (pacing_between_rows_when_counts_agree Sample.as_float
              Sample.rejects_first Sample.table Sample.table start eq_refl)
    as ((c & n & delta & Hrun & Hpc & Hb & _) & _).
  exists c, n, delta. repeat split; assumption.
Defined.

(** X17 on a table whose only entry is archived. *)
Lemma export_of_no_row_witness :
  select_memories Sample.archive = [] /\
  export_memories Sample.as_float Sample.always_limited
    (Connected (Sees Sample.archive) (Sees Sample.archive)) start =
  (tt, advance start 0
         [ Print (TotalToExportLine 0);
           Print (StartingLine BATCH_SIZE DELAY_BETWEEN_BATCHES);
           Print RuleLine; Print ExportCompleteLine; Print RuleLine;
           Print (SuccessfulLine 0); Print (FailedLine 0); Print (TotalLine 0);
           Print (TotalBatchesLine 0) ]).
Proof.
  split; [reflexivity |].
  apply (export_of_no_row Sample.as_float Sample.always_limited
           Sample.archive Sample.archive start).
  reflexivity.
Defined.
